(** * Azure blob storage adapter: path normalisation and bulk delete

    A shallow embedding of [src/persistence/azureBlobStorage.ts]
    (class [AzureBlobStorage]) and of the abstract base class of the same
    name that the browser and server adapters extend, together with the
    properties of key resolution, chunking and bulk deletion. *)

From Stdlib Require Import ZArith List String Ascii Bool Lia DecimalString.
From Stdlib Require Import Strings.Byte.
Import ListNotations.

Open Scope string_scope.
Open Scope Z_scope.

(** ** JavaScript strings

    Strings are sequences of code units; the methods used by the adapter
    only ever compare single code units with ["/"] and ["\"]. *)

Definition slash : ascii := "/"%char.
Definition backslash : ascii := "\"%char.

Definition isSlash (c : ascii) : bool := Ascii.eqb c slash.
Definition isBackslash (c : ascii) : bool := Ascii.eqb c backslash.

(** [value.replace(/\\/g, "\/")]: every backslash becomes a forward slash. *)
Fixpoint replaceBackslashes (value : string) : string :=
  match value with
  | EmptyString => EmptyString
  | String c rest =>
      String (if isBackslash c then slash else c) (replaceBackslashes rest)
  end.

(** Longest prefix of slashes removed: what the greedy quantifier of
    [/\/{2,}/] consumes once a match has started. *)
Fixpoint skipSlashes (value : string) : string :=
  match value with
  | EmptyString => EmptyString
  | String c rest => if isSlash c then skipSlashes rest else value
  end.

(** [value.replace(/\/{2,}/gm, "\/")]: every maximal run of two or more
    slashes is replaced by one slash.  Written structurally: a slash that is
    followed by a slash is dropped, so the last slash of a run is the one
    that stays.  [replaceSlashRuns_match] below relates this to the
    left-to-right greedy matching of the regular expression. *)
Fixpoint replaceSlashRuns (value : string) : string :=
  match value with
  | EmptyString => EmptyString
  | String c rest =>
      match rest with
      | EmptyString => String c EmptyString
      | String c' _ =>
          if isSlash c && isSlash c' then replaceSlashRuns rest
          else String c (replaceSlashRuns rest)
      end
  end.

(** [value.startsWith(search)]. *)
Definition startsWith (value search : string) : bool := prefix search value.

(** [value.endsWith(search)]. *)
Fixpoint endsWith (value search : string) : bool :=
  String.eqb value search
  || match value with
     | EmptyString => false
     | String _ rest => endsWith rest search
     end.

(** [value.substring(start)]: the code units from index [start] on. *)
Fixpoint substringFrom (start : nat) (value : string) : string :=
  match start, value with
  | O, _ => value
  | S _, EmptyString => EmptyString
  | S start', String _ rest => substringFrom start' rest
  end.

(** [value.slice(0, -1)]: everything but the last code unit. *)
Fixpoint sliceInit (value : string) : string :=
  match value with
  | EmptyString => EmptyString
  | String c rest =>
      match rest with
      | EmptyString => EmptyString
      | String _ _ => String c (sliceInit rest)
      end
  end.

(** [value.includes(c)] for a single code unit. *)
Fixpoint includesChar (c : ascii) (value : string) : bool :=
  match value with
  | EmptyString => false
  | String c' rest => Ascii.eqb c' c || includesChar c rest
  end.

(** Two adjacent slashes somewhere in the string. *)
Fixpoint hasSlashRun (value : string) : bool :=
  match value with
  | EmptyString => false
  | String c rest =>
      match rest with
      | EmptyString => false
      | String c' _ => (isSlash c && isSlash c') || hasSlashRun rest
      end
  end.

(** The invariant of a storage key: forward slashes only, no run of two
    or more slashes, relative (no leading slash), no trailing slash. *)
Definition isStorageKey (key : string) : bool :=
  negb (includesChar backslash key)
  && negb (hasSlashRun key)
  && negb (startsWith key "/")
  && negb (endsWith key "/").

(** ** JavaScript values, errors and promises *)

(** The values the adapter's public methods resolve with. *)
#[warnings="-register-all"]
Inductive JsValue : Type :=
| JsUndefined
| JsNull
| JsNumber (n : Z)
| JsString (s : string)
| JsObject (props : list (string * JsValue)).

(** Property read [value.key]; [None] where JavaScript yields [undefined]. *)
Definition getProperty (value : JsValue) (key : string) : option JsValue :=
  match value with
  | JsObject props =>
      option_map snd (find (fun kv => String.eqb (fst kv) key) props)
  | _ => None
  end.

(** A thrown value: [Error] objects of the adapter carry no status code,
    the SDK's [RestError] carries the HTTP status in [statusCode]. *)
Record JsError : Type := mkJsError {
  errorName : string;
  message : string;
  statusCode : option Z
}.

(** [new Error(message)]. *)
Definition newError (msg : string) : JsError :=
  {| errorName := "Error"; message := msg; statusCode := None |}.

(** [`${error}`], that is [Error.prototype.toString]: the message alone
    when the name is empty, the name alone when the message is empty, else
    both with a colon between them. *)
Definition errorToString (error : JsError) : string :=
  if (String.length (errorName error) =? 0)%nat then message error
  else if (String.length (message error) =? 0)%nat then errorName error
  else errorName error ++ ": " ++ message error.

(** The state of a promise.  [Pending] is a promise that never settles,
    which is what a caller sees of a body that does not terminate. *)
Inductive Promise (A : Type) : Type :=
| Pending
| Fulfilled (value : A)
| Rejected (reason : JsError).

Arguments Pending {A}.
Arguments Fulfilled {A} value.
Arguments Rejected {A} reason.

(** How a synchronous call ends: it returns a value or it throws. *)
Inductive Completion (A : Type) : Type :=
| Returned (value : A)
| Thrown (error : JsError).

Arguments Returned {A} value.
Arguments Thrown {A} error.

(** [`${n}`] for an integral number. *)
Definition numberToString (n : Z) : string :=
  NilZero.string_of_int (Z.to_int n).

(** ** The storage SDK, as far as the adapter calls it

    The SDK is outside the repository; each object is a record of what
    its methods answer. *)

Record BlobItem : Type := { name : string }.

Record BlockBlobClient : Type := {
  url : string;
  (** [blockBlobClient.delete()] *)
  delete : Promise unit;
  (** [blockBlobClient.generateSasUrl(sasOptions)]; the validity window in
      [sasOptions] is read from the clock and is not modelled. *)
  generateSasUrl : Promise string
}.

Record BlobBatchResponse : Type := { subResponsesFailedCount : Z }.

Record BlobBatchClient : Type := {
  (** [blobBatchClient.submitBatch(batch, {})], by the sub-request URLs of
      the batch. *)
  submitBatch : list string -> Promise BlobBatchResponse
}.

Record ContainerClient : Type := {
  containerName : string;
  (** [credential instanceof AnonymousCredential] *)
  credentialIsAnonymous : bool;
  getBlockBlobClient : string -> BlockBlobClient;
  (** All pages of [listBlobsFlat({ prefix })]. *)
  listBlobsFlat : string -> Promise (list BlobItem)
}.

Record BlobServiceClient : Type := {
  getContainerClient : string -> Completion ContainerClient;
  getBlobBatchClient : Completion BlobBatchClient
}.

Record StorageSdk : Type := {
  (** [BlobServiceClient.fromConnectionString] *)
  fromConnectionString : string -> Completion BlobServiceClient;
  (** [new ContainerClient(url)] *)
  newContainerClient : string -> Completion ContainerClient
}.

(** ** Effects

    What a run leaves behind: the batches handed to the backend, the
    events sent to the logger, the promises that were created and never
    awaited, and the rejections nobody handled. *)

Record TrackedEvent : Type := {
  eventName : string;
  properties : list (string * string)
}.

(** A call [processDeleteBatch(clients, blobPrefix)] whose promise was
    dropped: it has been started and runs from the job queue. *)
Record FloatingDelete : Type := {
  floatingClients : list BlockBlobClient;
  floatingPrefix : string
}.

Record World : Type := {
  submitted : list (list string);
  tracked : list TrackedEvent;
  floating : list FloatingDelete;
  unhandledRejections : list JsError
}.

Definition emptyWorld : World :=
  {| submitted := []; tracked := []; floating := []; unhandledRejections := [] |}.

(** An [async] body: it transforms the world and leaves a promise state. *)
Definition Async (A : Type) : Type := World -> World * Promise A.

Definition ret {A : Type} (a : A) : Async A := fun w => (w, Fulfilled a).

Definition throw {A : Type} (error : JsError) : Async A :=
  fun w => (w, Rejected error).

(** A body that never returns. *)
Definition hang {A : Type} : Async A := fun w => (w, Pending).

Definition bind {A B : Type} (m : Async A) (k : A -> Async B) : Async B :=
  fun w =>
    match m w with
    | (w', Fulfilled a) => k a w'
    | (w', Rejected error) => (w', Rejected error)
    | (w', Pending) => (w', Pending)
    end.

(** [await p] for a promise whose state the SDK decides. *)
Definition await {A : Type} (p : Promise A) : Async A := fun w => (w, p).

(** [try { body } catch (error) { handler }]. *)
Definition tryCatch {A : Type} (body : Async A) (handler : JsError -> Async A)
  : Async A :=
  fun w =>
    match body w with
    | (w', Rejected error) => handler error w'
    | other => other
    end.

Declare Scope async_scope.
Delimit Scope async_scope with async.
Notation "x <- m ;; k" := (bind m (fun x => k))
  (at level 61, m at next level, right associativity) : async_scope.
Notation "m ;; k" := (bind m (fun _ => k))
  (at level 61, right associativity) : async_scope.
Open Scope async_scope.

(** [this.logger.trackEvent(eventName, properties)]. *)
Definition trackEvent (eventName : string) (properties : list (string * string))
  : Async unit :=
  fun w =>
    ({| submitted := submitted w;
        tracked := tracked w ++ [{| eventName := eventName; properties := properties |}];
        floating := floating w;
        unhandledRejections := unhandledRejections w |},
     Fulfilled tt).

(** [await this.blobBatchClient.submitBatch(batch, {})]: the batch reaches
    the backend, which answers. *)
Definition submitBatchRequest (client : BlobBatchClient) (batch : list string)
  : Async BlobBatchResponse :=
  fun w =>
    ({| submitted := submitted w ++ [batch];
        tracked := tracked w;
        floating := floating w;
        unhandledRejections := unhandledRejections w |},
     submitBatch client batch).

(** Calling an [async] function and dropping its promise. *)
Definition startFloating (task : FloatingDelete) : Async unit :=
  fun w =>
    ({| submitted := submitted w;
        tracked := tracked w;
        floating := floating w ++ [task];
        unhandledRejections := unhandledRejections w |},
     Fulfilled tt).

(** [array.map(f)] where only the effects of [f] matter. *)
Fixpoint forEach {A : Type} (f : A -> Async unit) (items : list A) : Async unit :=
  match items with
  | [] => ret tt
  | item :: rest => f item ;; forEach f rest
  end.

(** ** Arrays *)

(** [array.splice(0, deleteCount)]: the removed elements and what is left
    in the array.  The count is clamped to [0 .. array.length]. *)
Definition splice0 {A : Type} (array : list A) (deleteCount : Z)
  : list A * list A :=
  let actualDeleteCount :=
    Z.to_nat (Z.min (Z.max deleteCount 0) (Z.of_nat (List.length array))) in
  (firstn actualDeleteCount array, skipn actualDeleteCount array).

(** Every chunk holds exactly [chunkSize] elements, except the last one,
    which holds at least one and at most [chunkSize]. *)
Fixpoint fullChunks {A : Type} (chunkSize : Z) (chunks : list (list A)) : bool :=
  match chunks with
  | [] => true
  | chunk :: rest =>
      match rest with
      | [] =>
          (1 <=? Z.of_nat (List.length chunk))
          && (Z.of_nat (List.length chunk) <=? chunkSize)
      | _ :: _ =>
          (Z.of_nat (List.length chunk) =? chunkSize) && fullChunks chunkSize rest
      end
  end.

(** The double quote, for messages that contain one. *)
Definition dquote : string := String (ascii_of_nat 34) EmptyString.

(** [ISettingsProvider.getSetting<string>(name)]; [None] is [undefined]. *)
Definition SettingsProvider : Type := string -> option string.

(** A setting that is truthy: present and not the empty string. *)
Definition truthySetting (setting : option string) : option string :=
  match setting with
  | Some value => if (String.length value =? 0)%nat then None else Some value
  | None => None
  end.

(** [value.split(separator)] for a separator of one code unit.  The
    array always has at least one element. *)
Fixpoint splitString (separator : ascii) (value : string) : list string :=
  match value with
  | EmptyString => [EmptyString]
  | String c rest =>
      if Ascii.eqb c separator then EmptyString :: splitString separator rest
      else
        match splitString separator rest with
        | segment :: segments => String c segment :: segments
        | [] => [String c EmptyString]
        end
  end.

(** [blobKey.split("/").pop()], the file name of a key. *)
Definition fileNameOf (blobKey : string) : string :=
  List.last (splitString slash blobKey) EmptyString.

(** ** Blob contents and streams *)

Definition bytes : Type := list byte.

(** What a Node.js readable stream emits, in order. *)
Inductive StreamEvent : Type :=
| StreamData (chunk : bytes)
| StreamEnd
| StreamError (error : JsError).

(** The response of [blobClient.download()]: [blobBody] is set in the
    browser ([await blob.arrayBuffer()] included), [readableStreamBody] in
    Node.js; [status] is [_response.status]. *)
Record BlobDownloadResponse : Type := {
  blobBody : option (Promise bytes);
  readableStreamBody : option (list StreamEvent);
  status : Z
}.

(** The transfer calls of the SDK and of the run time, by blob name. *)
Record BlobTransfer : Type := {
  (** [containerClient.getBlobClient(name).url] *)
  blobClientUrl : string -> string;
  (** [blobClient.download()] *)
  download : string -> Promise BlobDownloadResponse;
  (** [blockBlobClient.upload(content, content.byteLength,
      { blobHTTPHeaders: { blobContentType } })] *)
  upload : string -> bytes -> string -> Promise unit;
  (** [mime.lookup(fileName)]; [None] is [false]. *)
  mimeLookup : string -> option string;
  (** [new Uint8Array(buffer.buffer)]: the bytes of the [ArrayBuffer] that
      backs a [Buffer]; how the two relate is a matter of memory layout. *)
  arrayBufferOf : bytes -> bytes;
  (** [error.stack]; [None] is [undefined]. *)
  stackOf : JsError -> option string
}.

(** [error.stack || error.message]. *)
Definition stackOrMessage (transfer : BlobTransfer) (error : JsError) : string :=
  match truthySetting (stackOf transfer error) with
  | Some stack => stack
  | None => message error
  end.

(** The handlers [streamToBuffer] registers: ["data"] pushes a chunk,
    ["end"] resolves with [Buffer.concat(chunks)], ["error"] rejects.  A
    promise settles once, so the first ["end"] or ["error"] decides. *)
Fixpoint streamToBufferFrom (events : list StreamEvent) (chunks : list bytes)
  : Promise bytes :=
  match events with
  | [] => Pending
  | StreamData chunk :: rest => streamToBufferFrom rest (chunks ++ [chunk])
  | StreamEnd :: _ => Fulfilled (List.concat chunks)
  | StreamError error :: _ => Rejected error
  end.

(** [streamToBuffer(readableStream)]; on [undefined] the executor throws
    when it reads [on], which rejects the promise. *)
Definition streamToBuffer (readableStream : option (list StreamEvent))
  : Promise bytes :=
  match readableStream with
  | Some events => streamToBufferFrom events []
  | None =>
      Rejected {| errorName := "TypeError";
                  message := "Cannot read properties of undefined (reading 'on')";
                  statusCode := None |}
  end.

(** ** The class [AzureBlobStorage] of [src/persistence/azureBlobStorage.ts] *)

Module AzureBlobStorage.

(** The fields of an instance once [initialize()] has settled. *)
Record t : Type := {
  basePath : string;
  containerClient : ContainerClient;
  blobBatchClient : option BlobBatchClient
}.

(** [normalizePath]: backslashes replaced, one leading slash and one
    trailing slash stripped, and only then runs of slashes collapsed. *)
Definition normalizePath (value : string) : string :=
  let value := replaceBackslashes value in
  let value := if startsWith value "/" then substringFrom 1 value else value in
  let value := if endsWith value "/" then sliceInit value else value in
  replaceSlashRuns value.

(** [getFullKey]: the template [`${this.basePath}/${this.normalizePath(blobKey)}`]. *)
Definition getFullKey (basePath blobKey : string) : string :=
  basePath ++ "/" ++ normalizePath blobKey.

(** [initContainer]: reads the settings and builds the clients.  What an
    SDK constructor throws rejects the promise. *)
Definition initContainer (sdk : StorageSdk) (settingsProvider : SettingsProvider)
  : Promise t :=
  let blobStorageBasePath :=
    match truthySetting (settingsProvider "blobStorageBasePath") with
    | Some value => value
    | None => EmptyString
    end in
  let basePath := normalizePath blobStorageBasePath in
  match truthySetting (settingsProvider "blobStorageConnectionString") with
  | Some blobStorageConnectionString =>
      match truthySetting (settingsProvider "blobStorageContainer") with
      | None =>
          Rejected (newError ("Setting " ++ dquote ++ "blobStorageContainer" ++ dquote
                              ++ " required to initialize AzureBlobStorage."))
      | Some containerName =>
          match fromConnectionString sdk blobStorageConnectionString with
          | Thrown error => Rejected error
          | Returned serviceClient =>
              match getContainerClient serviceClient containerName with
              | Thrown error => Rejected error
              | Returned containerClient =>
                  match getBlobBatchClient serviceClient with
                  | Thrown error => Rejected error
                  | Returned blobBatchClient =>
                      Fulfilled {| basePath := basePath;
                                   containerClient := containerClient;
                                   blobBatchClient := Some blobBatchClient |}
                  end
              end
          end
      end
  | None =>
      match truthySetting (settingsProvider "blobStorageUrl") with
      | Some blobStorageUrl =>
          match newContainerClient sdk blobStorageUrl with
          | Thrown error => Rejected error
          | Returned containerClient =>
              Fulfilled {| basePath := basePath;
                           containerClient := containerClient;
                           blobBatchClient := None |}
          end
      | None =>
          Rejected (newError ("Setting " ++ dquote ++ "blobStorageConnectionString" ++ dquote
                              ++ " or " ++ dquote ++ "blobStorageUrl" ++ dquote
                              ++ " required to initialize AzureBlobStorage."))
      end
  end.

(** The loop of [chunkArray]: while [srcArray.length] is non-zero, splice
    [chunkSize] elements off the front of [srcArray] and push them onto
    [results].  [fuel] bounds the number of iterations; [None] is a loop
    that is still running when the fuel is spent. *)
Fixpoint chunkArrayLoop {A : Type} (fuel : nat) (chunkSize : Z)
  (srcArray : list A) (results : list (list A))
  : option (list (list A) * list A) :=
  match srcArray with
  | [] => Some (results, srcArray)
  | _ :: _ =>
      match fuel with
      | O => None
      | S fuel' =>
          let (removed, remaining) := splice0 srcArray chunkSize in
          chunkArrayLoop fuel' chunkSize remaining (results ++ [removed])
      end
  end.

(** [chunkArray(srcArray, chunkSize)]: the chunks returned and the final
    contents of the array that was passed in.  [chunkSize] is an integer,
    as the method documents it. *)
Definition chunkArray {A : Type} (fuel : nat) (srcArray : list A) (chunkSize : Z)
  : option (list (list A) * list A) :=
  chunkArrayLoop fuel chunkSize srcArray [].

(** [listAllBlobItems(prefix)]. *)
Definition listAllBlobItems (self : t) (prefix : string) : Async (list BlobItem) :=
  await (listBlobsFlat (containerClient self) prefix).

(** [processDeleteBatch(clients, blobPrefix)]: one sub-request per client,
    in order, then one [submitBatch]; a non-zero failure count is logged.
    [BlobBatch.deleteBlob] is taken to add its sub-request and not to throw. *)
Definition processDeleteBatch (self : t) (clients : list BlockBlobClient)
  (blobPrefix : string) : Async unit :=
  let batchDeleteRequest :=
    fold_left (fun batch client => (batch ++ [url client])%list) clients [] in
  match blobBatchClient self with
  | None =>
      throw {| errorName := "TypeError";
               message := "Cannot read properties of undefined (reading 'submitBatch')";
               statusCode := None |}
  | Some batchClient =>
      result <- submitBatchRequest batchClient batchDeleteRequest ;;
      if subResponsesFailedCount result =? 0 then ret tt
      else
        trackEvent "AzureBlobStorage"
          [("message",
            "Delete blob folder failed for '" ++ blobPrefix ++ "': "
            ++ numberToString (subResponsesFailedCount result) ++ " items.")]
  end.

(** [deleteBlobFolder(blobPrefix)].  Fewer than 256 clients are deleted in
    one awaited batch.  Otherwise the clients are cut into chunks of 250
    and [chunks.map(async chunk => await this.processDeleteBatch(chunk,
    blobPrefix))] starts one call per chunk; the array of promises that
    [map] returns is dropped, so none of them is awaited. *)
Definition deleteBlobFolder (self : t) (blobPrefix : string) : Async JsValue :=
  match blobBatchClient self with
  | None =>
      throw (newError "deleteBlobFolder works only with client created from the blob storage connection string")
  | Some _ =>
      let fullBlobPrefix := getFullKey (basePath self) blobPrefix in
      allBlobs <- listAllBlobItems self fullBlobPrefix ;;
      tryCatch
        (let clients :=
           map (fun item => getBlockBlobClient (containerClient self) (name item)) allBlobs in
         if (0 <? List.length clients)%nat then
           if (List.length clients <? 256)%nat then
             processDeleteBatch self clients blobPrefix
           else
             match chunkArray (List.length clients) clients 250 with
             | Some (chunks, _) =>
                 forEach
                   (fun chunk =>
                      startFloating {| floatingClients := chunk; floatingPrefix := blobPrefix |})
                   chunks
             | None => hang
             end
         else ret tt)
        (fun error =>
           throw (newError ("Unable to delete blobs in " ++ blobPrefix ++ ". Error: "
                            ++ errorToString error))) ;;
      ret JsUndefined
  end.

(** The job queue after the caller's body has returned: every floating
    call runs; a rejection has no handler and is reported as unhandled.
    The calls are run in the order in which they were started; how the
    awaits of different calls interleave is left to the scheduler and is
    not modelled. *)
Fixpoint runFloating (self : t) (tasks : list FloatingDelete) (w : World) : World :=
  match tasks with
  | [] => w
  | task :: rest =>
      let (w', state) :=
        processDeleteBatch self (floatingClients task) (floatingPrefix task) w in
      let w'' :=
        match state with
        | Rejected error =>
            {| submitted := submitted w';
               tracked := tracked w';
               floating := floating w';
               unhandledRejections := unhandledRejections w' ++ [error] |}
        | _ => w'
        end in
      runFloating self rest w''
  end.

Definition drainJobs (self : t) (w : World) : World :=
  runFloating self (floating w)
    {| submitted := submitted w;
       tracked := tracked w;
       floating := [];
       unhandledRejections := unhandledRejections w |}.

(** [deleteBlob(blobKey)].  [initialized] is the promise that
    [this.initialize()] returns; it is awaited before the [try] block, so
    its rejection is the method's.  Inside the block a rejection with
    status 404 is swallowed. *)
Definition deleteBlob (initialized : Promise t) (blobKey : string) : Async JsValue :=
  self <- await initialized ;;
  tryCatch
    (let fullBlobKey := getFullKey (basePath self) blobKey in
     let blockBlobClient := getBlockBlobClient (containerClient self) fullBlobKey in
     await (delete blockBlobClient) ;;
     ret JsUndefined)
    (fun error =>
       match statusCode error with
       | Some code => if code =? 404 then ret JsUndefined else throw error
       | None => throw error
       end).

(** [getDownloadUrl(blobKey)]: a SAS URL unless the credential is
    anonymous (the imported class [BlobSASPermissions] is always defined),
    the plain URL otherwise; a rejection with status 404 becomes [null].
    The handler tests [error.statusCode && error.statusCode === 404]. *)
Definition getDownloadUrl (self : t) (blobKey : string) : Async JsValue :=
  let blobName := getFullKey (basePath self) blobKey in
  tryCatch
    (let blockBlobClient := getBlockBlobClient (containerClient self) blobName in
     if negb (credentialIsAnonymous (containerClient self)) then
       blobSasUrl <- await (generateSasUrl blockBlobClient) ;;
       ret (JsString blobSasUrl)
     else ret (JsString (url blockBlobClient)))
    (fun error =>
       match statusCode error with
       | Some code =>
           if negb (code =? 0) && (code =? 404) then ret JsNull else throw error
       | None => throw error
       end).

(** [initialize()]: the field [initializePromise] before and after the
    call, and the promise returned.  A promise object is truthy whatever its
    state, so [initContainer] runs only while the field is unset. *)
Definition initialize (sdk : StorageSdk) (settingsProvider : SettingsProvider)
  (initializePromise : option (Promise t)) : option (Promise t) * Promise t :=
  match initializePromise with
  | None =>
      let created := initContainer sdk settingsProvider in
      (Some created, created)
  | Some existing => (Some existing, existing)
  end.

(** A series of calls of [initialize()], each finding the SDK and the
    settings in the state given for it: the promises returned, in order. *)
Fixpoint initializeEach (calls : list (StorageSdk * SettingsProvider))
  (initializePromise : option (Promise t)) : list (Promise t) :=
  match calls with
  | [] => []
  | (sdk, settingsProvider) :: rest =>
      let (field, returned) := initialize sdk settingsProvider initializePromise in
      returned :: initializeEach rest field
  end.

(** [listBlobs(blobPrefix)]. *)
Definition listBlobs (self : t) (blobPrefix : string) : Async (list string) :=
  let prefix := getFullKey (basePath self) blobPrefix in
  allBlobs <- listAllBlobItems self prefix ;;
  if (0 <? List.length allBlobs)%nat then ret (map name allBlobs)
  else ret [].

(** The content type [uploadBlob] and [uploadStreamToBlob] settle on for
    a full key: the one given if it is truthy, else what [mime.lookup] says
    of the file name, else [application/octet-stream]. *)
Definition contentTypeFor (transfer : BlobTransfer) (blobKey : string)
  (contentType : option string) : string :=
  match truthySetting contentType with
  | Some given => given
  | None =>
      let fileName := fileNameOf blobKey in
      match truthySetting (mimeLookup transfer fileName) with
      | Some found => found
      | None => "application/octet-stream"
      end
  end.

(** [uploadBlob(blobKey, content, contentType)].  [initialized] is the
    promise that [this.initialize()] returns, awaited before anything
    else and outside the [try] block. *)
Definition uploadBlob (initialized : Promise t) (transfer : BlobTransfer)
  (blobKey : string) (content : bytes) (contentType : option string)
  : Async JsValue :=
  self <- await initialized ;;
  let blobKey := getFullKey (basePath self) blobKey in
  let contentType := contentTypeFor transfer blobKey contentType in
  tryCatch
    (await (upload transfer blobKey content contentType) ;;
     ret JsUndefined)
    (fun error =>
       throw (newError ("Unable to upload blob " ++ blobKey ++ ". "
                        ++ stackOrMessage transfer error))).

(** [downloadBlob(blobKey)]: the body of the browser first, then the
    stream of Node.js; nothing is caught. *)
Definition downloadBlob (self : t) (transfer : BlobTransfer) (blobKey : string)
  : Async bytes :=
  let fullBlobKey := getFullKey (basePath self) blobKey in
  downloadBlockBlobResponse <- await (download transfer fullBlobKey) ;;
  match blobBody downloadBlockBlobResponse with
  | Some body => await body
  | None =>
      match readableStreamBody downloadBlockBlobResponse with
      | Some events =>
          buffer <- await (streamToBuffer (Some events)) ;;
          ret (arrayBufferOf transfer buffer)
      | None => throw (newError ("Unable to download blob " ++ blobKey ++ "."))
      end
  end.

(** [getBlobAsStream(blobKey)]. *)
Definition getBlobAsStream (self : t) (transfer : BlobTransfer) (blobKey : string)
  : Async (option (list StreamEvent)) :=
  let fullBlobKey := getFullKey (basePath self) blobKey in
  downloadBlockBlobResponse <- await (download transfer fullBlobKey) ;;
  ret (readableStreamBody downloadBlockBlobResponse).

(** [getBlobAsUint8Array(blobKey)]: whatever is thrown is logged and
    answered with [null], here [None]. *)
Definition getBlobAsUint8Array (self : t) (transfer : BlobTransfer)
  (blobKey : string) : Async (option bytes) :=
  tryCatch
    (stream <- getBlobAsStream self transfer blobKey ;;
     buffer <- await (streamToBuffer stream) ;;
     ret (Some (arrayBufferOf transfer buffer)))
    (fun error =>
       trackEvent "AzureBlobStorage"
         [("message",
           "Unable to download blob " ++ blobKey ++ ": "
           ++ stackOrMessage transfer error)] ;;
       ret None).

End AzureBlobStorage.

(** ** Key resolution in the abstract base class

    The class that [BrowserAzureBlobStorage] and [ServerAzureBlobStorage]
    extend collapses runs of slashes before stripping, skips an empty base
    path and normalises the combined string. *)

Module AzureBlobStorageBase.

Definition normalizePath (value : string) : string :=
  let value := replaceSlashRuns (replaceBackslashes value) in
  let value := if startsWith value "/" then substringFrom 1 value else value in
  let value := if endsWith value "/" then sliceInit value else value in
  value.

(** [!!this.basePath] is [false] exactly for the empty string. *)
Definition getFullKey (basePath blobKey : string) : string :=
  let fullUrl :=
    if (String.length basePath =? 0)%nat then blobKey
    else basePath ++ "/" ++ blobKey in
  normalizePath fullUrl.

(** [deleteBlobFolder(blobPrefix)] of the base class: the text of the
    method and of [processDeleteBatch] is that of [azureBlobStorage.ts];
    only [getFullKey] differs. *)
Definition deleteBlobFolder (self : AzureBlobStorage.t) (blobPrefix : string)
  : Async JsValue :=
  match AzureBlobStorage.blobBatchClient self with
  | None =>
      throw (newError "deleteBlobFolder works only with client created from the blob storage connection string")
  | Some _ =>
      let fullBlobPrefix := getFullKey (AzureBlobStorage.basePath self) blobPrefix in
      allBlobs <- AzureBlobStorage.listAllBlobItems self fullBlobPrefix ;;
      tryCatch
        (let clients :=
           map (fun item =>
                  getBlockBlobClient (AzureBlobStorage.containerClient self) (name item))
               allBlobs in
         if (0 <? List.length clients)%nat then
           if (List.length clients <? 256)%nat then
             AzureBlobStorage.processDeleteBatch self clients blobPrefix
           else
             match AzureBlobStorage.chunkArray (List.length clients) clients 250 with
             | Some (chunks, _) =>
                 forEach
                   (fun chunk =>
                      startFloating {| floatingClients := chunk; floatingPrefix := blobPrefix |})
                   chunks
             | None => hang
             end
         else ret tt)
        (fun error =>
           throw (newError ("Unable to delete blobs in " ++ blobPrefix ++ ". Error: "
                            ++ errorToString error))) ;;
      ret JsUndefined
  end.

(** [getDownloadUrl(blobKey)] of the base class: the client's URL. *)
Definition getDownloadUrl (self : AzureBlobStorage.t) (blobKey : string)
  : Async JsValue :=
  let blobName := getFullKey (AzureBlobStorage.basePath self) blobKey in
  tryCatch
    (let blockBlobClient :=
       getBlockBlobClient (AzureBlobStorage.containerClient self) blobName in
     ret (JsString (url blockBlobClient)))
    (fun error =>
       match statusCode error with
       | Some code =>
           if negb (code =? 0) && (code =? 404) then ret JsNull else throw error
       | None => throw error
       end).

End AzureBlobStorageBase.

(** ** The adapter for the browser, [azureBlobStorage.browser.ts] *)

Module BrowserAzureBlobStorage.

(** [initContainer]: only [blobStorageUrl] is read; no batch client is
    ever created.  What the constructor throws rejects the promise. *)
Definition initContainer (sdk : StorageSdk) (settingsProvider : SettingsProvider)
  : Promise AzureBlobStorage.t :=
  let blobStorageBasePath :=
    match truthySetting (settingsProvider "blobStorageBasePath") with
    | Some value => value
    | None => EmptyString
    end in
  let basePath := AzureBlobStorageBase.normalizePath blobStorageBasePath in
  match truthySetting (settingsProvider "blobStorageUrl") with
  | Some blobStorageUrl =>
      match newContainerClient sdk blobStorageUrl with
      | Thrown error => Rejected error
      | Returned containerClient =>
          Fulfilled {| AzureBlobStorage.basePath := basePath;
                       AzureBlobStorage.containerClient := containerClient;
                       AzureBlobStorage.blobBatchClient := None |}
      end
  | None =>
      Rejected (newError ("Setting " ++ dquote ++ "blobStorageConnectionString" ++ dquote
                          ++ " or " ++ dquote ++ "blobStorageUrl" ++ dquote
                          ++ " required to initialize AzureBlobStorage."))
  end.

End BrowserAzureBlobStorage.

(** ** The adapter for the server, [azureBlobStorage.server.ts] *)

Module ServerAzureBlobStorage.

(** [removeQueryParameters(url)], that is [url.split('?')[0]]. *)
Definition removeQueryParameters (url : string) : string :=
  hd EmptyString (splitString "?"%char url).

(** [downloadBlob(blobKey)] as the server overrides it.  [initialized]
    is the promise that [this.initialize()] returns, awaited outside the
    [try] block.  Only the stream is read; a response without one is logged
    and the method falls off its end, resolving with [undefined], here
    [None]; whatever is thrown inside the block is logged and thrown
    again. *)
Definition downloadBlob (initialized : Promise AzureBlobStorage.t)
  (transfer : BlobTransfer) (blobKey : string) : Async (option bytes) :=
  self <- await initialized ;;
  let fullBlobKey :=
    AzureBlobStorageBase.getFullKey (AzureBlobStorage.basePath self) blobKey in
  let blobUrl := removeQueryParameters (blobClientUrl transfer fullBlobKey) in
  tryCatch
    (downloadBlockBlobResponse <- await (download transfer fullBlobKey) ;;
     match readableStreamBody downloadBlockBlobResponse with
     | Some events =>
         buffer <- await (streamToBuffer (Some events)) ;;
         ret (Some (arrayBufferOf transfer buffer))
     | None =>
         let statusCode := status downloadBlockBlobResponse in
         trackEvent "AzureBlobStorage"
           [("message",
             "Unable to download blob " ++ blobUrl ++ ". Status code: "
             ++ numberToString statusCode)] ;;
         ret None
     end)
    (fun error =>
       trackEvent "AzureBlobStorage"
         [("message",
           "Unable to download blob " ++ blobUrl ++ ": "
           ++ stackOrMessage transfer error)] ;;
       throw error).

End ServerAzureBlobStorage.

(** ** Vocabulary of the statements *)

(** The [BatchOutcome { totalRequested, totalFailed }] that the
    specification gives as the result of a bulk delete. *)
Definition batchOutcome (totalRequested totalFailed : Z) : JsValue :=
  JsObject [("totalRequested", JsNumber totalRequested);
            ("totalFailed", JsNumber totalFailed)].

(** The event [processDeleteBatch] logs for a batch with failures. *)
Definition failureEvent (blobPrefix : string) (failedCount : Z) : TrackedEvent :=
  {| eventName := "AzureBlobStorage";
     properties :=
       [("message",
         "Delete blob folder failed for '" ++ blobPrefix ++ "': "
         ++ numberToString failedCount ++ " items.")] |}.

(** What the backend's answer to one batch leaves in the log, in the list
    of rejections, and as the state of the call that submitted it. *)
Definition batchEvents (batchClient : BlobBatchClient) (blobPrefix : string)
  (batch : list string) : list TrackedEvent :=
  match submitBatch batchClient batch with
  | Fulfilled result =>
      if subResponsesFailedCount result =? 0 then []
      else [failureEvent blobPrefix (subResponsesFailedCount result)]
  | _ => []
  end.

Definition batchRejections (batchClient : BlobBatchClient) (batch : list string)
  : list JsError :=
  match submitBatch batchClient batch with
  | Rejected error => [error]
  | _ => []
  end.

Definition batchState (batchClient : BlobBatchClient) (batch : list string)
  : Promise unit :=
  match submitBatch batchClient batch with
  | Fulfilled _ => Fulfilled tt
  | Rejected error => Rejected error
  | Pending => Pending
  end.

(** The error [deleteBlobFolder] raises in place of one caught in its
    [try] block. *)
Definition wrapDeleteError (blobPrefix : string) (error : JsError) : JsError :=
  newError ("Unable to delete blobs in " ++ blobPrefix ++ ". Error: "
            ++ errorToString error).

(** The segments of a path: what lies between its slashes, the empty
    pieces left out. *)
Definition nonEmpty (value : string) : bool :=
  negb (String.length value =? 0)%nat.

Definition pathSegments (path : string) : list string :=
  filter nonEmpty (splitString slash path).

(** The two errors [initContainer] raises itself. *)
Definition containerSettingMissing : JsError :=
  newError ("Setting " ++ dquote ++ "blobStorageContainer" ++ dquote
            ++ " required to initialize AzureBlobStorage.").

Definition storageSettingMissing : JsError :=
  newError ("Setting " ++ dquote ++ "blobStorageConnectionString" ++ dquote
            ++ " or " ++ dquote ++ "blobStorageUrl" ++ dquote
            ++ " required to initialize AzureBlobStorage.").

(** The world after one more event has been logged. *)
Definition logged (w : World) (event : TrackedEvent) : World :=
  {| submitted := submitted w;
     tracked := tracked w ++ [event];
     floating := floating w;
     unhandledRejections := unhandledRejections w |}.

(** The events the server's [downloadBlob] logs. *)
Definition downloadErrorEvent (transfer : BlobTransfer) (blobUrl : string)
  (error : JsError) : TrackedEvent :=
  {| eventName := "AzureBlobStorage";
     properties :=
       [("message",
         "Unable to download blob " ++ blobUrl ++ ": "
         ++ stackOrMessage transfer error)] |}.

Definition downloadStatusEvent (blobUrl : string) (statusCode : Z) : TrackedEvent :=
  {| eventName := "AzureBlobStorage";
     properties :=
       [("message",
         "Unable to download blob " ++ blobUrl ++ ". Status code: "
         ++ numberToString statusCode)] |}.

(** The clients [deleteBlobFolder] builds for the listed blobs. *)
Definition clientsOf (self : AzureBlobStorage.t) (items : list BlobItem)
  : list BlockBlobClient :=
  map (fun item => getBlockBlobClient (AzureBlobStorage.containerClient self) (name item))
      items.

(** ** A storage to run the operations on

    A container [content] reached through a connection string, holding
    the blobs [folder/0], [folder/1], ... *)

Definition exampleUrl (blobName : string) : string :=
  "https://account.blob.core.windows.net/content/" ++ blobName.

Definition exampleClient (blobName : string) : BlockBlobClient :=
  {| url := exampleUrl blobName;
     delete := Fulfilled tt;
     generateSasUrl := Fulfilled (exampleUrl blobName ++ "?sp=r") |}.

(** The answer of the service for a blob that does not exist. *)
Definition blobNotFound : JsError :=
  {| errorName := "RestError";
     message := "The specified blob does not exist.";
     statusCode := Some 404 |}.

Definition missingClient (blobName : string) : BlockBlobClient :=
  {| url := exampleUrl blobName;
     delete := Rejected blobNotFound;
     generateSasUrl := Rejected blobNotFound |}.

Definition exampleItems (count : nat) : list BlobItem :=
  map (fun i => {| name := "folder/" ++ numberToString (Z.of_nat i) |}) (seq 0 count).

Definition exampleStorage (items : list BlobItem)
  (client : string -> BlockBlobClient) (batchClient : BlobBatchClient)
  : AzureBlobStorage.t :=
  {| AzureBlobStorage.basePath := AzureBlobStorage.normalizePath EmptyString;
     AzureBlobStorage.containerClient :=
       {| containerName := "content";
          credentialIsAnonymous := false;
          getBlockBlobClient := client;
          listBlobsFlat := fun _ => Fulfilled items |};
     AzureBlobStorage.blobBatchClient := Some batchClient |}.

(** The SDK and the settings from which [initContainer] builds it. *)
Definition exampleSdk (items : list BlobItem)
  (client : string -> BlockBlobClient) (batchClient : BlobBatchClient)
  : StorageSdk :=
  {| fromConnectionString := fun _ =>
       Returned
         {| getContainerClient := fun containerName =>
              Returned
                {| containerName := containerName;
                   credentialIsAnonymous := false;
                   getBlockBlobClient := client;
                   listBlobsFlat := fun _ => Fulfilled items |};
            getBlobBatchClient := Returned batchClient |};
     newContainerClient := fun _ =>
       Returned
         {| containerName := "content";
            credentialIsAnonymous := true;
            getBlockBlobClient := client;
            listBlobsFlat := fun _ => Fulfilled items |} |}.

Definition exampleSettings : SettingsProvider :=
  fun settingName =>
    if String.eqb settingName "blobStorageConnectionString" then
      Some "DefaultEndpointsProtocol=https;AccountName=account;AccountKey=key;EndpointSuffix=core.windows.net"
    else if String.eqb settingName "blobStorageContainer" then Some "content"
    else None.

(** Settings that name a storage URL and no connection string. *)
Definition exampleUrlSettings : SettingsProvider :=
  fun settingName =>
    if String.eqb settingName "blobStorageUrl" then
      Some "https://account.blob.core.windows.net/content?sv=2020&sig=abc"
    else None.

(** A backend that deletes every blob of every batch. *)
Definition reliableBatchClient : BlobBatchClient :=
  {| submitBatch := fun _ => Fulfilled {| subResponsesFailedCount := 0 |} |}.

(** A backend that fails to delete one blob of every batch. *)
Definition lossyBatchClient : BlobBatchClient :=
  {| submitBatch := fun _ => Fulfilled {| subResponsesFailedCount := 1 |} |}.

Definition transportError : JsError :=
  {| errorName := "RestError";
     message := "connect ECONNRESET";
     statusCode := None |}.

(** A backend whose connection breaks on every full batch of 250. *)
Definition brokenBatchClient : BlobBatchClient :=
  {| submitBatch := fun batch =>
       if (List.length batch =? 250)%nat then Rejected transportError
       else Fulfilled {| subResponsesFailedCount := 0 |} |}.

(** * Properties *)

(** ** Strings *)

Lemma isSlash_eq (c : ascii) : isSlash c = true -> c = slash.
Proof. unfold isSlash. apply Ascii.eqb_eq. Qed.

Lemma startsWith_slash_cons (c : ascii) (rest : string) :
  startsWith (String c rest) "/" = isSlash c.
Proof.
  unfold startsWith, isSlash, slash. cbn [prefix].
  destruct (ascii_dec "/" c) as [<- | Hne].
  - now destruct rest.
  - symmetry. apply Ascii.eqb_neq. congruence.
Qed.

Lemma startsWith_slash_nil : startsWith EmptyString "/" = false.
Proof. reflexivity. Qed.

Lemma endsWith_slash_single (c : ascii) :
  endsWith (String c EmptyString) "/" = isSlash c.
Proof.
  unfold isSlash, slash. simpl.
  now rewrite orb_false_r; destruct (Ascii.eqb c "/").
Qed.

Lemma endsWith_slash_cons (c c' : ascii) (rest : string) :
  endsWith (String c (String c' rest)) "/" = endsWith (String c' rest) "/".
Proof.
  cbn [endsWith String.eqb].
  now destruct (Ascii.eqb c "/").
Qed.

(** Unfolding equations at a string of at least two code units. *)
Lemma replaceSlashRuns_cons2 (c c' : ascii) (rest : string) :
  replaceSlashRuns (String c (String c' rest))
  = if isSlash c && isSlash c' then replaceSlashRuns (String c' rest)
    else String c (replaceSlashRuns (String c' rest)).
Proof. reflexivity. Qed.

Lemma hasSlashRun_cons2 (c c' : ascii) (rest : string) :
  hasSlashRun (String c (String c' rest))
  = (isSlash c && isSlash c') || hasSlashRun (String c' rest).
Proof. reflexivity. Qed.

Lemma sliceInit_cons2 (c c' : ascii) (rest : string) :
  sliceInit (String c (String c' rest)) = String c (sliceInit (String c' rest)).
Proof. reflexivity. Qed.

Lemma includesChar_cons (x c : ascii) (rest : string) :
  includesChar x (String c rest) = Ascii.eqb c x || includesChar x rest.
Proof. reflexivity. Qed.

(** The regular expression [/\/{2,}/g] seen from the left: a code unit
    that is not a slash is copied, and a slash swallows the slashes that
    follow it, so that a run of any length leaves exactly one slash. *)
Lemma replaceSlashRuns_other (c : ascii) (rest : string) :
  isSlash c = false ->
  replaceSlashRuns (String c rest) = String c (replaceSlashRuns rest).
Proof.
  intros Hc. destruct rest as [| c' rest']; [reflexivity |].
  rewrite replaceSlashRuns_cons2. now rewrite Hc.
Qed.

Lemma replaceSlashRuns_match (rest : string) :
  replaceSlashRuns (String slash rest)
  = String slash (replaceSlashRuns (skipSlashes rest)).
Proof.
  induction rest as [| c' rest' IH]; [reflexivity |].
  rewrite replaceSlashRuns_cons2.
  cbn [skipSlashes].
  destruct (isSlash c') eqn:Hc'.
  - apply isSlash_eq in Hc'. subst c'. exact IH.
  - reflexivity.
Qed.

Lemma replaceSlashRuns_head (c : ascii) (rest : string) :
  exists tail, replaceSlashRuns (String c rest) = String c tail.
Proof.
  revert c. induction rest as [| c' rest' IH]; intros c.
  - now exists EmptyString.
  - rewrite replaceSlashRuns_cons2.
    destruct (isSlash c && isSlash c') eqn:Hrun.
    + apply andb_true_iff in Hrun as [Hc Hc'].
      apply isSlash_eq in Hc, Hc'. subst.
      exact (IH slash).
    + eexists. reflexivity.
Qed.

Lemma hasSlashRun_replaceSlashRuns (value : string) :
  hasSlashRun (replaceSlashRuns value) = false.
Proof.
  induction value as [| c rest IH]; [reflexivity |].
  destruct rest as [| c' rest']; [reflexivity |].
  rewrite replaceSlashRuns_cons2.
  destruct (isSlash c && isSlash c') eqn:Hrun; [exact IH |].
  destruct (replaceSlashRuns_head c' rest') as [tail Htail].
  rewrite Htail in *.
  rewrite hasSlashRun_cons2. now rewrite Hrun, IH.
Qed.

Lemma hasSlashRun_tail (c : ascii) (rest : string) :
  hasSlashRun (String c rest) = false -> hasSlashRun rest = false.
Proof.
  destruct rest as [| c' rest']; [reflexivity |].
  rewrite hasSlashRun_cons2. intros H. now apply orb_false_iff in H.
Qed.

Lemma hasSlashRun_sliceInit (value : string) :
  hasSlashRun value = false -> hasSlashRun (sliceInit value) = false.
Proof.
  induction value as [| c rest IH]; [reflexivity |].
  destruct rest as [| c' rest']; [reflexivity |].
  intros H. pose proof (hasSlashRun_tail _ _ H) as Htail.
  specialize (IH Htail).
  destruct rest' as [| c'' rest'']; [reflexivity |].
  rewrite hasSlashRun_cons2 in H. apply orb_false_iff in H as [Hcc _].
  rewrite sliceInit_cons2. rewrite sliceInit_cons2 in *.
  rewrite hasSlashRun_cons2. now rewrite Hcc, IH.
Qed.

Lemma includesChar_replaceBackslashes (value : string) :
  includesChar backslash (replaceBackslashes value) = false.
Proof.
  induction value as [| c rest IH]; [reflexivity |].
  cbn [replaceBackslashes]. rewrite includesChar_cons, IH, orb_false_r.
  unfold isBackslash. destruct (Ascii.eqb c backslash) eqn:Hc; [reflexivity | exact Hc].
Qed.

Lemma includesChar_replaceSlashRuns (x : ascii) (value : string) :
  includesChar x value = false -> includesChar x (replaceSlashRuns value) = false.
Proof.
  induction value as [| c rest IH]; [reflexivity |].
  destruct rest as [| c' rest']; [easy |].
  intros H. rewrite includesChar_cons in H.
  apply orb_false_iff in H as [Hc Hrest].
  rewrite replaceSlashRuns_cons2.
  destruct (isSlash c && isSlash c'); [now apply IH |].
  rewrite includesChar_cons, Hc. now apply IH.
Qed.

Lemma includesChar_substringFrom (x : ascii) (start : nat) (value : string) :
  includesChar x value = false -> includesChar x (substringFrom start value) = false.
Proof.
  revert value. induction start as [| start IH]; intros value H; [exact H |].
  destruct value as [| c rest]; [reflexivity |].
  rewrite includesChar_cons in H. apply orb_false_iff in H as [_ H].
  now apply IH.
Qed.

Lemma includesChar_sliceInit (x : ascii) (value : string) :
  includesChar x value = false -> includesChar x (sliceInit value) = false.
Proof.
  induction value as [| c rest IH]; [reflexivity |].
  destruct rest as [| c' rest']; [reflexivity |].
  intros H. rewrite includesChar_cons in H.
  apply orb_false_iff in H as [Hc Hrest].
  rewrite sliceInit_cons2, includesChar_cons, Hc. now apply IH.
Qed.

Lemma includesChar_append (x : ascii) (a b : string) :
  includesChar x (a ++ b) = includesChar x a || includesChar x b.
Proof.
  induction a as [| c rest IH]; [reflexivity |].
  cbn [append]. now rewrite !includesChar_cons, IH, orb_assoc.
Qed.

Lemma startsWith_sliceInit (value : string) :
  startsWith value "/" = false -> startsWith (sliceInit value) "/" = false.
Proof.
  destruct value as [| c rest]; [reflexivity |].
  destruct rest as [| c' rest']; [reflexivity |].
  now rewrite sliceInit_cons2, !startsWith_slash_cons.
Qed.

Lemma endsWith_sliceInit (value : string) :
  hasSlashRun value = false ->
  endsWith value "/" = true ->
  endsWith (sliceInit value) "/" = false.
Proof.
  induction value as [| c rest IH]; [reflexivity |].
  destruct rest as [| c' rest']; [reflexivity |].
  intros Hrun Hends.
  rewrite endsWith_slash_cons in Hends.
  pose proof (hasSlashRun_tail _ _ Hrun) as Htail.
  specialize (IH Htail Hends).
  destruct rest' as [| c'' rest''].
  - rewrite endsWith_slash_single in Hends.
    rewrite hasSlashRun_cons2 in Hrun.
    rewrite Hends, andb_true_r in Hrun. apply orb_false_iff in Hrun as [Hc _].
    cbn [sliceInit]. now rewrite endsWith_slash_single.
  - rewrite sliceInit_cons2. rewrite sliceInit_cons2 in *.
    now rewrite endsWith_slash_cons.
Qed.

(** Stripping one leading and one trailing slash from a string that has
    no backslash and no run of slashes leaves a storage key. *)
Lemma strip_isStorageKey (value : string) :
  includesChar backslash value = false ->
  hasSlashRun value = false ->
  let value1 := if startsWith value "/" then substringFrom 1 value else value in
  let value2 := if endsWith value1 "/" then sliceInit value1 else value1 in
  isStorageKey value2 = true.
Proof.
  intros Hback Hrun value1 value2.
  assert (Hback1 : includesChar backslash value1 = false).
  { subst value1. destruct (startsWith value "/"); [| exact Hback].
    now apply includesChar_substringFrom. }
  assert (Hrun1 : hasSlashRun value1 = false).
  { subst value1. destruct (startsWith value "/"); [| exact Hrun].
    destruct value as [| c rest]; [reflexivity |].
    exact (hasSlashRun_tail _ _ Hrun). }
  assert (Hstart1 : startsWith value1 "/" = false).
  { subst value1. destruct (startsWith value "/") eqn:Hstart; [| exact Hstart].
    destruct value as [| c rest]; [reflexivity |].
    rewrite startsWith_slash_cons in Hstart.
    destruct rest as [| c' rest']; [reflexivity |].
    rewrite hasSlashRun_cons2, Hstart in Hrun.
    apply orb_false_iff in Hrun as [Hc' _].
    cbn [substringFrom]. now rewrite startsWith_slash_cons. }
  unfold isStorageKey. subst value2.
  destruct (endsWith value1 "/") eqn:Hends.
  - rewrite (includesChar_sliceInit _ _ Hback1), (hasSlashRun_sliceInit _ Hrun1),
      (startsWith_sliceInit _ Hstart1), (endsWith_sliceInit _ Hrun1 Hends).
    reflexivity.
  - now rewrite Hback1, Hrun1, Hstart1, Hends.
Qed.

(** In the abstract base class every normalised path is a storage key. *)
Lemma base_normalizePath_isStorageKey (value : string) :
  isStorageKey (AzureBlobStorageBase.normalizePath value) = true.
Proof.
  unfold AzureBlobStorageBase.normalizePath.
  apply strip_isStorageKey.
  - apply includesChar_replaceSlashRuns, includesChar_replaceBackslashes.
  - apply hasSlashRun_replaceSlashRuns.
Qed.

(** In the abstract base class key resolution yields a storage key for
    every base path and every raw key. *)
Lemma base_getFullKey_isStorageKey (basePath blobKey : string) :
  isStorageKey (AzureBlobStorageBase.getFullKey basePath blobKey) = true.
Proof.
  unfold AzureBlobStorageBase.getFullKey.
  apply base_normalizePath_isStorageKey.
Qed.

(** The equations of key resolution hold in the abstract base class. *)
Lemma base_getFullKey_examples :
  AzureBlobStorageBase.getFullKey EmptyString "a/b" = "a/b"
  /\ AzureBlobStorageBase.getFullKey "base" "/a//b/" = "base/a/b"
  /\ AzureBlobStorageBase.getFullKey EmptyString EmptyString = EmptyString.
Proof. repeat split; reflexivity. Qed.

(** What [normalizePath] of [azureBlobStorage.ts] does achieve: no
    backslash and no run of slashes in its result. *)
Lemma normalizePath_no_backslash (value : string) :
  includesChar backslash (AzureBlobStorage.normalizePath value) = false.
Proof.
  unfold AzureBlobStorage.normalizePath.
  apply includesChar_replaceSlashRuns.
  set (v := replaceBackslashes value).
  assert (Hv : includesChar backslash v = false)
    by apply includesChar_replaceBackslashes.
  assert (Hv1 : includesChar backslash
                  (if startsWith v "/" then substringFrom 1 v else v) = false).
  { destruct (startsWith v "/"); [now apply includesChar_substringFrom | exact Hv]. }
  destruct (endsWith _ "/"); [now apply includesChar_sliceInit | exact Hv1].
Qed.

Lemma normalizePath_no_slash_run (value : string) :
  hasSlashRun (AzureBlobStorage.normalizePath value) = false.
Proof. apply hasSlashRun_replaceSlashRuns. Qed.

(** With the base path that [initContainer] stores, a resolved key never
    contains a backslash. *)
Lemma getFullKey_no_backslash (setting blobKey : string) :
  includesChar backslash
    (AzureBlobStorage.getFullKey (AzureBlobStorage.normalizePath setting) blobKey)
  = false.
Proof.
  unfold AzureBlobStorage.getFullKey.
  rewrite !includesChar_append, !normalizePath_no_backslash.
  reflexivity.
Qed.

(** Case analysis of an equation on a chain of matches. *)
Ltac destruct_matches H :=
  repeat match type of H with
         | context [match ?scrutinee with _ => _ end] =>
             destruct scrutinee eqn:?; try discriminate H
         end.

(** [initContainer] stores a normalised base path. *)
Lemma initContainer_basePath (sdk : StorageSdk) (settingsProvider : SettingsProvider)
  (self : AzureBlobStorage.t) :
  AzureBlobStorage.initContainer sdk settingsProvider = Fulfilled self ->
  exists setting,
    AzureBlobStorage.basePath self = AzureBlobStorage.normalizePath setting.
Proof.
  unfold AzureBlobStorage.initContainer. intros Hinit.
  destruct_matches Hinit; injection Hinit as <-; eexists; reflexivity.
Qed.

(** So the keys of an initialised storage never contain a backslash. *)
Lemma initialised_getFullKey_no_backslash (sdk : StorageSdk)
  (settingsProvider : SettingsProvider) (self : AzureBlobStorage.t)
  (blobKey : string) :
  AzureBlobStorage.initContainer sdk settingsProvider = Fulfilled self ->
  includesChar backslash
    (AzureBlobStorage.getFullKey (AzureBlobStorage.basePath self) blobKey)
  = false.
Proof.
  intros Hinit. destruct (initContainer_basePath _ _ _ Hinit) as [setting ->].
  apply getFullKey_no_backslash.
Qed.

(** The example storage is what [initContainer] builds from the example
    settings; no base path is configured, so the base path is empty. *)
Lemma initContainer_example (items : list BlobItem)
  (client : string -> BlockBlobClient) (batchClient : BlobBatchClient) :
  AzureBlobStorage.initContainer (exampleSdk items client batchClient) exampleSettings
  = Fulfilled (exampleStorage items client batchClient)
  /\ AzureBlobStorage.basePath (exampleStorage items client batchClient) = EmptyString.
Proof. split; reflexivity. Qed.

(** C1 (code defect).  The claim: for every raw key and every configured
    base path the key resolved by [normalizePath] and [getFullKey] has no
    backslash, no run of slashes, no leading and no trailing slash.  In
    [azureBlobStorage.ts] it fails on three counts: with the default empty
    base path the key [a] resolves to [/a]; the key [a//] keeps a trailing
    slash; the key [//a] produces a run of two slashes. *)
Theorem getFullKey_not_storage_key :
  let basePath := AzureBlobStorage.normalizePath EmptyString in
  AzureBlobStorage.getFullKey basePath "a" = "/a"
  /\ isStorageKey (AzureBlobStorage.getFullKey basePath "a") = false
  /\ AzureBlobStorage.getFullKey "base" "a//" = "base/a/"
  /\ isStorageKey (AzureBlobStorage.getFullKey "base" "a//") = false
  /\ AzureBlobStorage.getFullKey "base" "//a" = "base//a"
  /\ isStorageKey (AzureBlobStorage.getFullKey "base" "//a") = false.
Proof. cbv zeta. repeat split; reflexivity. Qed.

(** C5 (code defect).  The claim: [resolve] of the empty base path and
    [a/b] is [a/b], [resolve] of [base] and [/a//b/] is [base/a/b], and the
    empty base path with the empty key gives the empty string.  In
    [azureBlobStorage.ts] the second equation holds; the other two results
    carry the slash that [getFullKey] always inserts: [/a/b] and [/]. *)
Theorem getFullKey_examples :
  AzureBlobStorage.getFullKey EmptyString "a/b" = "/a/b"
  /\ AzureBlobStorage.getFullKey "base" "/a//b/" = "base/a/b"
  /\ AzureBlobStorage.getFullKey EmptyString EmptyString = "/".
Proof. repeat split; reflexivity. Qed.

(** ** Arrays and [chunkArray] *)

Lemma splice0_positive {A : Type} (array : list A) (chunkSize : Z) :
  1 <= chunkSize ->
  let count := Nat.min (Z.to_nat chunkSize) (List.length array) in
  splice0 array chunkSize = (firstn count array, skipn count array).
Proof.
  intros Hsize count. unfold splice0.
  replace (Z.to_nat (Z.min (Z.max chunkSize 0) (Z.of_nat (List.length array))))
    with count by (subst count; lia).
  reflexivity.
Qed.

Lemma splice0_nonpositive {A : Type} (array : list A) (chunkSize : Z) :
  chunkSize <= 0 -> splice0 array chunkSize = ([], array).
Proof.
  intros Hsize. unfold splice0.
  replace (Z.to_nat (Z.min (Z.max chunkSize 0) (Z.of_nat (List.length array))))
    with O by lia.
  reflexivity.
Qed.

Lemma fullChunks_cons {A : Type} (chunkSize : Z) (chunk next : list A)
  (rest : list (list A)) :
  fullChunks chunkSize (chunk :: next :: rest)
  = (Z.of_nat (List.length chunk) =? chunkSize) && fullChunks chunkSize (next :: rest).
Proof. reflexivity. Qed.

(** The loop invariant of [chunkArray]: with a positive chunk size and
    enough fuel the loop ends with the source array empty; the chunks it
    pushed put together are the elements it started from, and all of them
    but the last are full. *)
Lemma chunkArrayLoop_positive {A : Type} (chunkSize : Z) :
  1 <= chunkSize ->
  forall (fuel : nat) (srcArray : list A) (results : list (list A)),
    (List.length srcArray <= fuel)%nat ->
    exists chunks,
      AzureBlobStorage.chunkArrayLoop fuel chunkSize srcArray results
      = Some ((results ++ chunks)%list, [])
      /\ List.concat chunks = srcArray
      /\ fullChunks chunkSize chunks = true
      /\ (chunks = [] <-> srcArray = []).
Proof.
  intros Hsize.
  induction fuel as [| fuel IH]; intros srcArray results Hfuel.
  - destruct srcArray as [| x rest]; [| simpl in Hfuel; lia].
    exists []. rewrite app_nil_r. repeat split; reflexivity.
  - destruct srcArray as [| x rest].
    { exists []. rewrite app_nil_r. repeat split; reflexivity. }
    cbn [AzureBlobStorage.chunkArrayLoop].
    rewrite (splice0_positive (x :: rest) chunkSize Hsize).
    set (count := Nat.min (Z.to_nat chunkSize) (List.length (x :: rest))).
    assert (Hcount : (1 <= count <= List.length (x :: rest))%nat)
      by (subst count; simpl; lia).
    assert (Hremoved : List.length (firstn count (x :: rest)) = count)
      by (rewrite length_firstn; lia).
    assert (Hremaining : List.length (skipn count (x :: rest))
                         = (List.length (x :: rest) - count)%nat)
      by apply length_skipn.
    destruct (IH (skipn count (x :: rest))
                 (results ++ [firstn count (x :: rest)])%list)
      as (chunks & Hloop & Hconcat & Hfull & Hempty).
    { rewrite Hremaining. lia. }
    exists (firstn count (x :: rest) :: chunks).
    split; [| split; [| split]].
    + rewrite Hloop. now rewrite <- app_assoc.
    + cbn [List.concat]. rewrite Hconcat. apply firstn_skipn.
    + destruct chunks as [| next chunks'].
      * assert (Hnil : skipn count (x :: rest) = []) by now apply Hempty.
        rewrite Hnil in Hremaining. cbn [List.length] in Hremaining.
        cbn [fullChunks]. rewrite Hremoved.
        apply andb_true_iff. split; [apply Z.leb_le | apply Z.leb_le];
          subst count; lia.
      * rewrite fullChunks_cons, Hfull, andb_true_r.
        apply Z.eqb_eq. rewrite Hremoved.
        assert (Hne : skipn count (x :: rest) <> []).
        { intros Hnil. apply Hempty in Hnil. discriminate. }
        assert (List.length (skipn count (x :: rest)) <> O).
        { intros Hz. apply Hne. now apply length_zero_iff_nil. }
        subst count. lia.
    + split; intros H; discriminate.
Qed.

(** With a chunk size that is not positive each iteration removes
    nothing, so on a non-empty array the loop is still running whatever
    the fuel. *)
Lemma chunkArrayLoop_nonpositive {A : Type} (chunkSize : Z) :
  chunkSize <= 0 ->
  forall (fuel : nat) (srcArray : list A) (results : list (list A)),
    srcArray <> [] ->
    AzureBlobStorage.chunkArrayLoop fuel chunkSize srcArray results = None.
Proof.
  intros Hsize.
  induction fuel as [| fuel IH]; intros srcArray results Hne;
    destruct srcArray as [| x rest]; try congruence; [reflexivity |].
  cbn [AzureBlobStorage.chunkArrayLoop].
  rewrite (splice0_nonpositive (x :: rest) chunkSize Hsize).
  now apply IH.
Qed.

(** More fuel than needed does not change what [chunkArray] returns. *)
Lemma chunkArrayLoop_fuel {A : Type} (chunkSize : Z) :
  forall (fuel : nat) (srcArray : list A) (results : list (list A)) outcome,
    AzureBlobStorage.chunkArrayLoop fuel chunkSize srcArray results = Some outcome ->
    forall fuel', (fuel <= fuel')%nat ->
      AzureBlobStorage.chunkArrayLoop fuel' chunkSize srcArray results = Some outcome.
Proof.
  induction fuel as [| fuel IH]; intros srcArray results outcome Hrun fuel' Hle.
  - destruct srcArray as [| x rest]; [| discriminate].
    destruct fuel'; exact Hrun.
  - destruct srcArray as [| x rest].
    + destruct fuel'; exact Hrun.
    + destruct fuel' as [| fuel']; [lia |].
      cbn [AzureBlobStorage.chunkArrayLoop] in *.
      destruct (splice0 (x :: rest) chunkSize) as [removed remaining].
      apply IH with (fuel' := fuel') in Hrun; [exact Hrun | lia].
Qed.

(** C10.  [chunkArray] consumes its argument: for a chunk size of at least
    one (and fuel for every element), the call returns, the array that
    was passed in is left empty, the returned chunks concatenated in order
    are its original contents, and every chunk but the last has exactly
    [chunkSize] elements (the last has between one and [chunkSize]). *)
Theorem chunkArray_consumes_source {A : Type} (xs : list A) (chunkSize : Z)
  (fuel : nat) :
  1 <= chunkSize ->
  (List.length xs <= fuel)%nat ->
  exists chunks srcArray,
    AzureBlobStorage.chunkArray fuel xs chunkSize = Some (chunks, srcArray)
    /\ List.length srcArray = O
    /\ List.concat chunks = xs
    /\ fullChunks chunkSize chunks = true.
Proof.
  intros Hsize Hfuel.
  destruct (chunkArrayLoop_positive chunkSize Hsize fuel xs [] Hfuel)
    as (chunks & Hloop & Hconcat & Hfull & _).
  exists chunks, []. unfold AzureBlobStorage.chunkArray.
  rewrite Hloop. repeat split; assumption.
Qed.

Lemma chunkArray_consumes_source_witness :
  exists chunks srcArray,
    AzureBlobStorage.chunkArray 5 [1; 2; 3; 4; 5] 2 = Some (chunks, srcArray)
    /\ List.length srcArray = O
    /\ List.concat chunks = [1; 2; 3; 4; 5]
    /\ fullChunks 2 chunks = true.
Proof.
  apply (chunkArray_consumes_source [1; 2; 3; 4; 5] 2 5); [lia | simpl; lia].
Defined.

(** C7 (the claim fails).  With a chunk size of zero [chunkArray] raises
    nothing: on the empty array it returns the empty list of chunks, and on
    a one-element array the loop is still running after any number of
    iterations.  The same holds for a negative size. *)
Lemma chunkArray_zero_size_no_error :
  AzureBlobStorage.chunkArray 1 (@nil Z) 0 = Some ([], [])
  /\ (forall fuel, AzureBlobStorage.chunkArray fuel [7] 0 = None)
  /\ (forall fuel, AzureBlobStorage.chunkArray fuel [7] (-1) = None).
Proof.
  split; [reflexivity |].
  split; intros fuel; apply chunkArrayLoop_nonpositive; (lia || discriminate).
Qed.

(** C7 (amended).  [chunkArray] does not validate its chunk size and
    raises no error: for every chunk size that is zero or negative it
    returns no chunks for the empty array and does not return for an array
    with elements, however much fuel it is given. *)
Theorem chunkArray_nonpositive_size {A : Type} (srcArray : list A)
  (chunkSize : Z) (fuel : nat) :
  chunkSize <= 0 ->
  AzureBlobStorage.chunkArray fuel srcArray chunkSize
  = match srcArray with
    | [] => Some ([], [])
    | _ :: _ => None
    end.
Proof.
  intros Hsize. destruct srcArray as [| x rest].
  - now destruct fuel.
  - apply chunkArrayLoop_nonpositive; [exact Hsize | discriminate].
Qed.

Lemma chunkArray_nonpositive_size_witness :
  AzureBlobStorage.chunkArray 1000 ["a"; "b"; "c"] (-3) = None.
Proof.
  apply (chunkArray_nonpositive_size ["a"; "b"; "c"] (-3) 1000). lia.
Defined.

(** ** Bulk delete *)

Lemma batchDeleteRequest_urls (clients : list BlockBlobClient) (batch : list string) :
  fold_left (fun batch client => (batch ++ [url client])%list) clients batch
  = (batch ++ map url clients)%list.
Proof.
  revert batch. induction clients as [| client rest IH]; intros batch.
  - now rewrite app_nil_r.
  - cbn [fold_left map]. rewrite IH. now rewrite <- app_assoc.
Qed.

(** One call of [processDeleteBatch] on a storage that has a batch client:
    exactly one batch reaches the backend, with the clients' URLs in order. *)
Lemma processDeleteBatch_run (self : AzureBlobStorage.t)
  (batchClient : BlobBatchClient) (clients : list BlockBlobClient)
  (blobPrefix : string) (w : World) :
  AzureBlobStorage.blobBatchClient self = Some batchClient ->
  AzureBlobStorage.processDeleteBatch self clients blobPrefix w
  = ({| submitted := submitted w ++ [map url clients];
        tracked := tracked w ++ batchEvents batchClient blobPrefix (map url clients);
        floating := floating w;
        unhandledRejections := unhandledRejections w |},
     batchState batchClient (map url clients)).
Proof.
  intros Hclient.
  unfold AzureBlobStorage.processDeleteBatch.
  rewrite Hclient, batchDeleteRequest_urls. cbn [app].
  unfold bind, submitBatchRequest, batchEvents, batchState.
  destruct (submitBatch batchClient (map url clients)) as [| result | error];
    try (now rewrite app_nil_r).
  destruct (subResponsesFailedCount result =? 0).
  - unfold ret. now rewrite app_nil_r.
  - reflexivity.
Qed.

(** The job queue: every floating call submits its batch, whatever
    happened to the calls before it. *)
Lemma runFloating_run (self : AzureBlobStorage.t) (batchClient : BlobBatchClient) :
  AzureBlobStorage.blobBatchClient self = Some batchClient ->
  forall (tasks : list FloatingDelete) (w : World),
    AzureBlobStorage.runFloating self tasks w
    = {| submitted :=
           submitted w ++ map (fun task => map url (floatingClients task)) tasks;
         tracked :=
           tracked w
           ++ flat_map (fun task =>
                          batchEvents batchClient (floatingPrefix task)
                            (map url (floatingClients task))) tasks;
         floating := floating w;
         unhandledRejections :=
           unhandledRejections w
           ++ flat_map (fun task =>
                          batchRejections batchClient
                            (map url (floatingClients task))) tasks |}.
Proof.
  intros Hclient.
  induction tasks as [| task rest IH]; intros w.
  - destruct w. cbn. now rewrite !app_nil_r.
  - cbn [AzureBlobStorage.runFloating].
    rewrite (processDeleteBatch_run self batchClient _ _ w Hclient).
    rewrite IH. cbn [map flat_map].
    unfold batchState, batchRejections.
    destruct (submitBatch batchClient (map url (floatingClients task)));
      cbn [submitted tracked floating unhandledRejections app];
      rewrite <- ?app_assoc; cbn [app]; rewrite ?app_nil_r; reflexivity.
Qed.

Lemma forEach_startFloating (blobPrefix : string)
  (chunks : list (list BlockBlobClient)) (w : World) :
  forEach
    (fun chunk =>
       startFloating {| floatingClients := chunk; floatingPrefix := blobPrefix |})
    chunks w
  = ({| submitted := submitted w;
        tracked := tracked w;
        floating :=
          floating w
          ++ map (fun chunk =>
                    {| floatingClients := chunk; floatingPrefix := blobPrefix |})
                 chunks;
        unhandledRejections := unhandledRejections w |},
     Fulfilled tt).
Proof.
  revert w. induction chunks as [| chunk rest IH]; intros w.
  - destruct w. cbn. now rewrite app_nil_r.
  - cbn [forEach]. unfold bind at 1. unfold startFloating at 1.
    rewrite IH. cbn [submitted tracked floating unhandledRejections map].
    now rewrite <- app_assoc.
Qed.

Section DeleteBlobFolder.

Variable self : AzureBlobStorage.t.
Variable batchClient : BlobBatchClient.
Variable blobPrefix : string.
Variable items : list BlobItem.

Hypothesis Hclient : AzureBlobStorage.blobBatchClient self = Some batchClient.
Hypothesis Hlist :
  listBlobsFlat (AzureBlobStorage.containerClient self)
    (AzureBlobStorage.getFullKey (AzureBlobStorage.basePath self) blobPrefix)
  = Fulfilled items.

Lemma clientsOf_length : List.length (clientsOf self items) = List.length items.
Proof. apply length_map. Qed.

(** Nothing listed: nothing is done. *)
Lemma deleteBlobFolder_empty (w : World) :
  items = [] ->
  AzureBlobStorage.deleteBlobFolder self blobPrefix w = (w, Fulfilled JsUndefined).
Proof.
  intros Hitems.
  unfold AzureBlobStorage.deleteBlobFolder, AzureBlobStorage.listAllBlobItems.
  rewrite Hclient. unfold bind at 1. unfold await. rewrite Hlist, Hitems.
  reflexivity.
Qed.

(** Fewer than 256 blobs: one batch with all of them, awaited; a
    rejection of the submission is caught and raised again, wrapped. *)
Lemma deleteBlobFolder_small (w : World) :
  items <> [] ->
  (List.length items < 256)%nat ->
  AzureBlobStorage.deleteBlobFolder self blobPrefix w
  = ({| submitted := submitted w ++ [map url (clientsOf self items)];
        tracked :=
          tracked w ++ batchEvents batchClient blobPrefix (map url (clientsOf self items));
        floating := floating w;
        unhandledRejections := unhandledRejections w |},
     match batchState batchClient (map url (clientsOf self items)) with
     | Fulfilled _ => Fulfilled JsUndefined
     | Rejected error => Rejected (wrapDeleteError blobPrefix error)
     | Pending => Pending
     end).
Proof.
  intros Hitems Hsmall.
  unfold AzureBlobStorage.deleteBlobFolder, AzureBlobStorage.listAllBlobItems.
  rewrite Hclient. unfold bind at 1. unfold await. rewrite Hlist.
  fold (clientsOf self items). rewrite clientsOf_length.
  assert (Hpos : (0 <? List.length items)%nat = true).
  { apply Nat.ltb_lt. destruct items; [congruence | simpl; lia]. }
  rewrite Hpos. apply Nat.ltb_lt in Hsmall. rewrite Hsmall.
  unfold bind, tryCatch.
  rewrite (processDeleteBatch_run self batchClient _ _ w Hclient).
  destruct (batchState batchClient (map url (clientsOf self items)));
    reflexivity.
Qed.

(** 256 blobs or more: the clients are cut into chunks of 250 and one
    call per chunk is left floating; nothing has been submitted and
    nothing can be caught when [deleteBlobFolder] returns. *)
Lemma deleteBlobFolder_large (w : World) :
  (256 <= List.length items)%nat ->
  exists chunks,
    List.concat chunks = clientsOf self items
    /\ fullChunks 250 chunks = true
    /\ AzureBlobStorage.deleteBlobFolder self blobPrefix w
       = ({| submitted := submitted w;
             tracked := tracked w;
             floating :=
               floating w
               ++ map (fun chunk =>
                         {| floatingClients := chunk; floatingPrefix := blobPrefix |})
                      chunks;
             unhandledRejections := unhandledRejections w |},
          Fulfilled JsUndefined).
Proof.
  intros Hlarge.
  destruct (chunkArrayLoop_positive 250 ltac:(lia)
              (List.length (clientsOf self items)) (clientsOf self items) []
              (le_n _))
    as (chunks & Hloop & Hconcat & Hfull & _).
  exists chunks. split; [exact Hconcat |]. split; [exact Hfull |].
  unfold AzureBlobStorage.deleteBlobFolder, AzureBlobStorage.listAllBlobItems.
  rewrite Hclient. unfold bind at 1. unfold await. rewrite Hlist.
  fold (clientsOf self items).
  unfold AzureBlobStorage.chunkArray. rewrite Hloop.
  rewrite clientsOf_length.
  assert (Hpos : (0 <? List.length items)%nat = true) by (apply Nat.ltb_lt; lia).
  assert (Hbig : (List.length items <? 256)%nat = false) by (apply Nat.ltb_ge; lia).
  rewrite Hpos, Hbig. cbn [app].
  unfold bind, tryCatch. rewrite forEach_startFloating. reflexivity.
Qed.

End DeleteBlobFolder.

Lemma fullChunks_bounds {A : Type} (chunkSize : Z) (chunks : list (list A)) :
  1 <= chunkSize ->
  fullChunks chunkSize chunks = true ->
  Forall (fun chunk => 1 <= Z.of_nat (List.length chunk) <= chunkSize) chunks.
Proof.
  intros Hsize.
  induction chunks as [| chunk rest IH]; intros Hfull; [constructor |].
  destruct rest as [| next rest'].
  - cbn [fullChunks] in Hfull. apply andb_true_iff in Hfull as [Hlo Hhi].
    apply Z.leb_le in Hlo, Hhi. constructor; [lia | constructor].
  - rewrite fullChunks_cons in Hfull. apply andb_true_iff in Hfull as [Hlen Hrest].
    apply Z.eqb_eq in Hlen. constructor; [lia | now apply IH].
Qed.

Lemma fullChunks_map {A B : Type} (f : A -> B) (chunkSize : Z)
  (chunks : list (list A)) :
  fullChunks chunkSize (map (map f) chunks) = fullChunks chunkSize chunks.
Proof.
  induction chunks as [| chunk rest IH]; [reflexivity |].
  destruct rest as [| next rest'].
  - cbn [map fullChunks]. now rewrite length_map.
  - cbn [map]. rewrite !fullChunks_cons. cbn [map] in IH.
    now rewrite IH, length_map.
Qed.

Lemma floating_batches (blobPrefix : string) (chunks : list (list BlockBlobClient)) :
  map (fun task => map url (floatingClients task))
      (map (fun chunk => {| floatingClients := chunk; floatingPrefix := blobPrefix |})
           chunks)
  = map (map url) chunks.
Proof. rewrite map_map. reflexivity. Qed.

Lemma floating_events (batchClient : BlobBatchClient) (blobPrefix : string)
  (chunks : list (list BlockBlobClient)) :
  flat_map (fun task =>
              batchEvents batchClient (floatingPrefix task)
                (map url (floatingClients task)))
    (map (fun chunk => {| floatingClients := chunk; floatingPrefix := blobPrefix |})
         chunks)
  = flat_map (batchEvents batchClient blobPrefix) (map (map url) chunks).
Proof.
  induction chunks as [| chunk rest IH]; [reflexivity |].
  cbn [map flat_map floatingPrefix floatingClients]. now rewrite IH.
Qed.

(** What a whole run of [deleteBlobFolder] submits and logs once the job
    queue is empty: the batches of a list of groups of clients that, put
    together in order, are the clients of the listed blobs. *)
Lemma deleteBlobFolder_drained (self : AzureBlobStorage.t)
  (batchClient : BlobBatchClient) (blobPrefix : string) (items : list BlobItem) :
  AzureBlobStorage.blobBatchClient self = Some batchClient ->
  listBlobsFlat (AzureBlobStorage.containerClient self)
    (AzureBlobStorage.getFullKey (AzureBlobStorage.basePath self) blobPrefix)
  = Fulfilled items ->
  let run := AzureBlobStorage.deleteBlobFolder self blobPrefix emptyWorld in
  let final := AzureBlobStorage.drainJobs self (fst run) in
  exists groups,
    List.concat groups = clientsOf self items
    /\ submitted final = map (map url) groups
    /\ tracked final = flat_map (batchEvents batchClient blobPrefix) (submitted final)
    /\ floating final = []
    /\ (items = [] -> groups = [])
    /\ (items <> [] -> (List.length items < 256)%nat -> groups = [clientsOf self items])
    /\ ((256 <= List.length items)%nat ->
        fullChunks 250 groups = true /\ snd run = Fulfilled JsUndefined).
Proof.
  intros Hclient Hlist run final.
  destruct (Nat.ltb_spec (List.length items) 256) as [Hsmall | Hlarge].
  - destruct items as [| item rest] eqn:Hitems.
    + exists []. subst run final.
      rewrite (deleteBlobFolder_empty self batchClient blobPrefix [] Hclient Hlist _ eq_refl).
      repeat split; try reflexivity; try congruence.
    + exists [clientsOf self items]. subst run final. rewrite <- Hitems in *.
      assert (Hne : items <> []) by (rewrite Hitems; discriminate).
      rewrite (deleteBlobFolder_small self batchClient blobPrefix items Hclient Hlist _ Hne Hsmall).
      cbn [fst snd]. unfold AzureBlobStorage.drainJobs.
      cbn [submitted tracked floating unhandledRejections emptyWorld app
           AzureBlobStorage.runFloating List.concat map flat_map].
      rewrite !app_nil_r.
      repeat split; try reflexivity; try congruence; lia.
  - destruct (deleteBlobFolder_large self batchClient blobPrefix items Hclient Hlist
                emptyWorld Hlarge) as (chunks & Hconcat & Hfull & Hrun).
    exists chunks. subst run final. rewrite Hrun. cbn [fst snd].
    unfold AzureBlobStorage.drainJobs.
    rewrite (runFloating_run self batchClient Hclient).
    cbn [submitted tracked floating unhandledRejections emptyWorld app].
    rewrite floating_batches, floating_events.
    repeat split; try reflexivity; try assumption.
    + intros ->. simpl in Hlarge. lia.
    + intros _ Hlt. lia.
Qed.

Lemma chunks_of_300 {A : Type} (chunks : list (list A)) (xs : list A) :
  List.concat chunks = xs ->
  List.length xs = 300%nat ->
  fullChunks 250 chunks = true ->
  chunks = [firstn 250 xs; skipn 250 xs].
Proof.
  intros Hconcat Hlen Hfull.
  destruct chunks as [| c1 [| c2 [| c3 rest]]].
  - subst xs. discriminate.
  - cbn [List.concat] in Hconcat. rewrite app_nil_r in Hconcat. subst c1.
    cbn [fullChunks] in Hfull. apply andb_true_iff in Hfull as [_ Hhi].
    apply Z.leb_le in Hhi. lia.
  - rewrite fullChunks_cons in Hfull. apply andb_true_iff in Hfull as [H1 _].
    apply Z.eqb_eq in H1.
    assert (Hc1 : List.length c1 = 250%nat) by lia.
    cbn [List.concat] in Hconcat. rewrite app_nil_r in Hconcat. subst xs.
    rewrite firstn_app, skipn_app, Hc1, Nat.sub_diag.
    rewrite <- Hc1 at 1 2. rewrite firstn_all, skipn_all.
    cbn [firstn skipn app]. now rewrite app_nil_r.
  - rewrite !fullChunks_cons in Hfull.
    apply andb_true_iff in Hfull as [H1 Hfull].
    apply andb_true_iff in Hfull as [H2 _].
    apply Z.eqb_eq in H1, H2.
    subst xs. cbn [List.concat] in Hlen. rewrite !length_app in Hlen. lia.
Qed.

(** C2 (the claim fails).  Three blobs are deleted and the backend reports
    one failure: [deleteBlobFolder] resolves with [undefined], which is no
    [BatchOutcome] and has no [totalFailed]; the count is in the log. *)
Lemma deleteBlobFolder_returns_undefined :
  let self := exampleStorage (exampleItems 3) exampleClient lossyBatchClient in
  let run := AzureBlobStorage.deleteBlobFolder self "folder" emptyWorld in
  snd run = Fulfilled JsUndefined
  /\ ~ (exists totalRequested totalFailed,
          snd run = Fulfilled (batchOutcome totalRequested totalFailed))
  /\ getProperty JsUndefined "totalFailed" = None
  /\ tracked (fst run) = [failureEvent "folder" 1].
Proof.
  cbv zeta. split; [reflexivity |]. split; [| split; reflexivity].
  intros (totalRequested & totalFailed & H). vm_compute in H. discriminate.
Qed.

(** C2 (amended).  [deleteBlobFolder] resolves with no value: whenever its
    promise is fulfilled the value is [undefined].  The failures the backend
    reports are only logged: once the job queue is empty the log holds, in
    order, one event for each submitted batch whose response has a non-zero
    [subResponsesFailedCount], and nothing else. *)
Theorem deleteBlobFolder_logs_failures (self : AzureBlobStorage.t)
  (batchClient : BlobBatchClient) (blobPrefix : string) (items : list BlobItem) :
  AzureBlobStorage.blobBatchClient self = Some batchClient ->
  listBlobsFlat (AzureBlobStorage.containerClient self)
    (AzureBlobStorage.getFullKey (AzureBlobStorage.basePath self) blobPrefix)
  = Fulfilled items ->
  let run := AzureBlobStorage.deleteBlobFolder self blobPrefix emptyWorld in
  let final := AzureBlobStorage.drainJobs self (fst run) in
  (forall value, snd run = Fulfilled value -> value = JsUndefined)
  /\ tracked final = flat_map (batchEvents batchClient blobPrefix) (submitted final).
Proof.
  intros Hclient Hlist run final.
  split.
  - intros value Hvalue. subst run.
    destruct (Nat.ltb_spec (List.length items) 256) as [Hsmall | Hlarge].
    + destruct items as [| item rest] eqn:Hitems.
      * rewrite (deleteBlobFolder_empty self batchClient blobPrefix [] Hclient Hlist _ eq_refl)
          in Hvalue.
        cbn [snd] in Hvalue. congruence.
      * rewrite <- Hitems in *.
        assert (Hne : items <> []) by (rewrite Hitems; discriminate).
        rewrite (deleteBlobFolder_small self batchClient blobPrefix items Hclient Hlist
                   _ Hne Hsmall) in Hvalue.
        cbn [snd] in Hvalue.
        destruct (batchState batchClient (map url (clientsOf self items)));
          congruence.
    + destruct (deleteBlobFolder_large self batchClient blobPrefix items Hclient Hlist
                  emptyWorld Hlarge) as (chunks & _ & _ & Hrun).
      rewrite Hrun in Hvalue. cbn [snd] in Hvalue. congruence.
  - destruct (deleteBlobFolder_drained self batchClient blobPrefix items Hclient Hlist)
      as (groups & _ & _ & Htracked & _).
    exact Htracked.
Qed.

Lemma deleteBlobFolder_logs_failures_witness :
  let self := exampleStorage (exampleItems 300) exampleClient lossyBatchClient in
  let run := AzureBlobStorage.deleteBlobFolder self "folder" emptyWorld in
  let final := AzureBlobStorage.drainJobs self (fst run) in
  (forall value, snd run = Fulfilled value -> value = JsUndefined)
  /\ tracked final = flat_map (batchEvents lossyBatchClient "folder") (submitted final).
Proof.
  apply (deleteBlobFolder_logs_failures
           (exampleStorage (exampleItems 300) exampleClient lossyBatchClient)
           lossyBatchClient "folder" (exampleItems 300));
    reflexivity.
Defined.

(** C3 (the claim fails).  With the ceiling of 250 that [deleteBlobFolder]
    passes to [chunkArray], 251 blobs are sent as one batch of 251. *)
Lemma deleteBlobFolder_batch_of_251 :
  let self := exampleStorage (exampleItems 251) exampleClient reliableBatchClient in
  let run := AzureBlobStorage.deleteBlobFolder self "folder" emptyWorld in
  let final := AzureBlobStorage.drainJobs self (fst run) in
  map (@List.length string) (submitted final) = [251%nat]
  /\ ~ Forall (fun batch => (List.length batch <= 250)%nat) (submitted final).
Proof.
  cbv zeta.
  assert (Hsizes :
    map (@List.length string)
      (submitted
         (AzureBlobStorage.drainJobs
            (exampleStorage (exampleItems 251) exampleClient reliableBatchClient)
            (fst (AzureBlobStorage.deleteBlobFolder
                    (exampleStorage (exampleItems 251) exampleClient reliableBatchClient)
                    "folder" emptyWorld))))
    = [251%nat]) by (vm_compute; reflexivity).
  split; [exact Hsizes |].
  intros Hall.
  destruct (submitted _) as [| batch rest]; [discriminate |].
  inversion Hall as [| ? ? Hbatch _]; subst.
  cbn [map] in Hsizes. injection Hsizes as Hlen _. lia.
Qed.

(** C3 (amended).  For a non-empty list of blobs [deleteBlobFolder] cuts
    the clients into ordered groups that do not overlap and submits one
    batch per group: fewer than 256 blobs form a single group; 256 or more
    are cut into groups of exactly 250, the last of which may be smaller.
    No group is empty and none has more than 255 elements. *)
Theorem deleteBlobFolder_groups (self : AzureBlobStorage.t)
  (batchClient : BlobBatchClient) (blobPrefix : string) (items : list BlobItem) :
  AzureBlobStorage.blobBatchClient self = Some batchClient ->
  listBlobsFlat (AzureBlobStorage.containerClient self)
    (AzureBlobStorage.getFullKey (AzureBlobStorage.basePath self) blobPrefix)
  = Fulfilled items ->
  items <> [] ->
  let run := AzureBlobStorage.deleteBlobFolder self blobPrefix emptyWorld in
  let final := AzureBlobStorage.drainJobs self (fst run) in
  exists groups,
    List.concat groups = clientsOf self items
    /\ submitted final = map (map url) groups
    /\ Forall (fun group => (1 <= List.length group <= 255)%nat) groups
    /\ ((List.length items < 256)%nat -> groups = [clientsOf self items])
    /\ ((256 <= List.length items)%nat -> fullChunks 250 groups = true).
Proof.
  intros Hclient Hlist Hne run final.
  destruct (deleteBlobFolder_drained self batchClient blobPrefix items Hclient Hlist)
    as (groups & Hconcat & Hsubmitted & _ & _ & _ & Hsmall & Hlarge).
  exists groups. split; [exact Hconcat |]. split; [exact Hsubmitted |].
  split; [| split].
  - destruct (Nat.ltb_spec (List.length items) 256) as [Hlt | Hge].
    + rewrite (Hsmall Hne Hlt). constructor; [| constructor].
      rewrite (clientsOf_length self items).
      destruct items; [congruence | simpl in *; lia].
    + destruct (Hlarge Hge) as [Hfull _].
      apply fullChunks_bounds in Hfull; [| lia].
      eapply Forall_impl; [| exact Hfull]. cbv beta. intros group Hgroup. lia.
  - intros Hlt. now apply Hsmall.
  - intros Hge. now apply Hlarge.
Qed.

Lemma deleteBlobFolder_groups_witness :
  let self := exampleStorage (exampleItems 600) exampleClient reliableBatchClient in
  let run := AzureBlobStorage.deleteBlobFolder self "folder" emptyWorld in
  let final := AzureBlobStorage.drainJobs self (fst run) in
  exists groups,
    List.concat groups = clientsOf self (exampleItems 600)
    /\ submitted final = map (map url) groups
    /\ Forall (fun group => (1 <= List.length group <= 255)%nat) groups
    /\ ((List.length (exampleItems 600) < 256)%nat
        -> groups = [clientsOf self (exampleItems 600)])
    /\ ((256 <= List.length (exampleItems 600))%nat -> fullChunks 250 groups = true).
Proof.
  apply (deleteBlobFolder_groups
           (exampleStorage (exampleItems 600) exampleClient reliableBatchClient)
           reliableBatchClient "folder" (exampleItems 600));
    [reflexivity | reflexivity | discriminate].
Defined.

(** Below 256 blobs a failed submission does reach the caller: the
    rejection is caught and raised again, wrapped, after the one call. *)
Lemma deleteBlobFolder_small_rejects (self : AzureBlobStorage.t)
  (batchClient : BlobBatchClient) (blobPrefix : string) (items : list BlobItem)
  (error : JsError) :
  AzureBlobStorage.blobBatchClient self = Some batchClient ->
  listBlobsFlat (AzureBlobStorage.containerClient self)
    (AzureBlobStorage.getFullKey (AzureBlobStorage.basePath self) blobPrefix)
  = Fulfilled items ->
  items <> [] ->
  (List.length items < 256)%nat ->
  submitBatch batchClient (map url (clientsOf self items)) = Rejected error ->
  let run := AzureBlobStorage.deleteBlobFolder self blobPrefix emptyWorld in
  snd run = Rejected (wrapDeleteError blobPrefix error)
  /\ submitted (fst run) = [map url (clientsOf self items)]
  /\ floating (fst run) = [].
Proof.
  intros Hclient Hlist Hne Hsmall Hreject run. subst run.
  rewrite (deleteBlobFolder_small self batchClient blobPrefix items Hclient Hlist
             _ Hne Hsmall).
  unfold batchState. rewrite Hreject. repeat split; reflexivity.
Qed.

(** C4 (code defect).  The claim: groups are submitted one after the
    other, and a submission that fails altogether reaches the caller of
    [deleteBlobFolder] and stops the remaining groups.  With 256 blobs and a
    backend whose connection breaks on the first group of 250:
    [deleteBlobFolder] has started both groups and submitted none when it
    resolves, and it resolves successfully; from the job queue both groups
    are then submitted, the failure of the first does not stop the second,
    and it ends as an unhandled rejection. *)
Theorem deleteBlobFolder_loses_rejection :
  let self := exampleStorage (exampleItems 256) exampleClient brokenBatchClient in
  let run := AzureBlobStorage.deleteBlobFolder self "folder" emptyWorld in
  let final := AzureBlobStorage.drainJobs self (fst run) in
  snd run = Fulfilled JsUndefined
  /\ submitted (fst run) = []
  /\ map (fun task => List.length (floatingClients task)) (floating (fst run))
     = [250%nat; 6%nat]
  /\ map (@List.length string) (submitted final) = [250%nat; 6%nat]
  /\ map (submitBatch brokenBatchClient) (submitted final)
     = [Rejected transportError; Fulfilled {| subResponsesFailedCount := 0 |}]
  /\ unhandledRejections final = [transportError].
Proof. cbv zeta. repeat split; vm_compute; reflexivity. Qed.

(** C6.  For 300 listed blobs [deleteBlobFolder] issues exactly two
    batch-delete calls: it starts one call of [processDeleteBatch] for the
    first 250 blobs and then one for the remaining 50, and each of them
    submits one batch, of 250 and of 50 sub-requests. *)
Theorem deleteBlobFolder_300_items (self : AzureBlobStorage.t)
  (batchClient : BlobBatchClient) (blobPrefix : string) (items : list BlobItem) :
  AzureBlobStorage.blobBatchClient self = Some batchClient ->
  listBlobsFlat (AzureBlobStorage.containerClient self)
    (AzureBlobStorage.getFullKey (AzureBlobStorage.basePath self) blobPrefix)
  = Fulfilled items ->
  List.length items = 300%nat ->
  let run := AzureBlobStorage.deleteBlobFolder self blobPrefix emptyWorld in
  let final := AzureBlobStorage.drainJobs self (fst run) in
  let clients := clientsOf self items in
  map floatingClients (floating (fst run)) = [firstn 250 clients; skipn 250 clients]
  /\ submitted final = [map url (firstn 250 clients); map url (skipn 250 clients)]
  /\ List.length (map url (firstn 250 clients)) = 250%nat
  /\ List.length (map url (skipn 250 clients)) = 50%nat.
Proof.
  intros Hclient Hlist Hlen run final clients.
  assert (Hclients : List.length clients = 300%nat)
    by (subst clients; now rewrite (clientsOf_length self items)).
  destruct (deleteBlobFolder_large self batchClient blobPrefix items Hclient Hlist
              emptyWorld ltac:(lia)) as (chunks & Hconcat & Hfull & Hrun).
  fold clients in Hconcat.
  rewrite (chunks_of_300 chunks clients Hconcat Hclients Hfull) in Hrun.
  subst final run. rewrite Hrun. cbn [fst].
  unfold AzureBlobStorage.drainJobs.
  rewrite (runFloating_run self batchClient Hclient).
  cbn [submitted floating emptyWorld app map floatingClients].
  split; [reflexivity |]. split; [reflexivity |].
  rewrite !length_map, length_firstn, length_skipn, Hclients.
  split; reflexivity.
Qed.

Lemma deleteBlobFolder_300_items_witness :
  let self := exampleStorage (exampleItems 300) exampleClient reliableBatchClient in
  let run := AzureBlobStorage.deleteBlobFolder self "folder" emptyWorld in
  let final := AzureBlobStorage.drainJobs self (fst run) in
  let clients := clientsOf self (exampleItems 300) in
  map floatingClients (floating (fst run)) = [firstn 250 clients; skipn 250 clients]
  /\ submitted final = [map url (firstn 250 clients); map url (skipn 250 clients)]
  /\ List.length (map url (firstn 250 clients)) = 250%nat
  /\ List.length (map url (skipn 250 clients)) = 50%nat.
Proof.
  apply (deleteBlobFolder_300_items
           (exampleStorage (exampleItems 300) exampleClient reliableBatchClient)
           reliableBatchClient "folder" (exampleItems 300));
    reflexivity.
Defined.

(** C9 (the claim fails).  For a folder with no blobs [deleteBlobFolder]
    resolves with [undefined], not with the outcome of zero requested and
    zero failed. *)
Lemma deleteBlobFolder_empty_returns_undefined :
  let self := exampleStorage [] exampleClient reliableBatchClient in
  let run := AzureBlobStorage.deleteBlobFolder self "folder" emptyWorld in
  snd run = Fulfilled JsUndefined
  /\ snd run <> Fulfilled (batchOutcome 0 0).
Proof. cbv zeta. split; [reflexivity | discriminate]. Qed.

(** C9 (amended).  When no blob is listed [deleteBlobFolder] resolves,
    with [undefined], and makes no batch-delete call: nothing is submitted,
    logged or left floating, and the job queue has nothing to run. *)
Theorem deleteBlobFolder_nothing_listed (self : AzureBlobStorage.t)
  (batchClient : BlobBatchClient) (blobPrefix : string) :
  AzureBlobStorage.blobBatchClient self = Some batchClient ->
  listBlobsFlat (AzureBlobStorage.containerClient self)
    (AzureBlobStorage.getFullKey (AzureBlobStorage.basePath self) blobPrefix)
  = Fulfilled [] ->
  let run := AzureBlobStorage.deleteBlobFolder self blobPrefix emptyWorld in
  snd run = Fulfilled JsUndefined
  /\ fst run = emptyWorld
  /\ submitted (AzureBlobStorage.drainJobs self (fst run)) = [].
Proof.
  intros Hclient Hlist run. subst run.
  rewrite (deleteBlobFolder_empty self batchClient blobPrefix [] Hclient Hlist _ eq_refl).
  repeat split; reflexivity.
Qed.

Lemma deleteBlobFolder_nothing_listed_witness :
  let self := exampleStorage [] exampleClient lossyBatchClient in
  let run := AzureBlobStorage.deleteBlobFolder self "folder" emptyWorld in
  snd run = Fulfilled JsUndefined
  /\ fst run = emptyWorld
  /\ submitted (AzureBlobStorage.drainJobs self (fst run)) = [].
Proof.
  apply (deleteBlobFolder_nothing_listed
           (exampleStorage [] exampleClient lossyBatchClient) lossyBatchClient "folder");
    reflexivity.
Defined.

(** ** Missing blobs *)

(** [getDownloadUrl] does not ask the backend whether the blob exists:
    with an anonymous credential it answers with the client's URL. *)
Lemma getDownloadUrl_anonymous (self : AzureBlobStorage.t) (blobKey : string)
  (w : World) :
  credentialIsAnonymous (AzureBlobStorage.containerClient self) = true ->
  AzureBlobStorage.getDownloadUrl self blobKey w
  = (w, Fulfilled
          (JsString
             (url (getBlockBlobClient (AzureBlobStorage.containerClient self)
                     (AzureBlobStorage.getFullKey (AzureBlobStorage.basePath self)
                        blobKey))))).
Proof.
  intros Hanonymous. unfold AzureBlobStorage.getDownloadUrl, tryCatch.
  now rewrite Hanonymous.
Qed.

(** C8 (the claim fails).  A storage built from a storage URL has an
    anonymous credential.  For a key whose blob the backend reports missing
    (status 404 on [delete()]), [deleteBlob] resolves, but [getDownloadUrl]
    resolves with the blob's URL, not with [null]: it never asks the backend
    about the blob. *)
Lemma getDownloadUrl_of_missing_blob :
  exists self,
    AzureBlobStorage.initContainer
      (exampleSdk [] missingClient reliableBatchClient) exampleUrlSettings
    = Fulfilled self
    /\ delete (getBlockBlobClient (AzureBlobStorage.containerClient self)
                 (AzureBlobStorage.getFullKey (AzureBlobStorage.basePath self)
                    "gone.png"))
       = Rejected blobNotFound
    /\ statusCode blobNotFound = Some 404
    /\ AzureBlobStorage.deleteBlob (Fulfilled self) "gone.png" emptyWorld
       = (emptyWorld, Fulfilled JsUndefined)
    /\ AzureBlobStorage.getDownloadUrl self "gone.png" emptyWorld
       = (emptyWorld, Fulfilled (JsString (exampleUrl "/gone.png")))
    /\ snd (AzureBlobStorage.getDownloadUrl self "gone.png" emptyWorld)
       <> Fulfilled JsNull.
Proof.
  eexists. split; [reflexivity |].
  repeat split; try reflexivity. discriminate.
Qed.

(** C8 (amended).  On an initialised storage, when the backend answers
    [delete()] with status 404, [deleteBlob] swallows the error and
    resolves.  [getDownloadUrl] does not ask the backend whether the blob
    exists: with an anonymous credential it resolves with the URL of the
    blob, missing or not; with another credential it resolves with [null]
    when [generateSasUrl] rejects with status 404.  Neither raises. *)
Theorem not_found_is_not_an_error (self : AzureBlobStorage.t) (blobKey : string)
  (error : JsError) (w : World) :
  statusCode error = Some 404 ->
  let blockBlobClient :=
    getBlockBlobClient (AzureBlobStorage.containerClient self)
      (AzureBlobStorage.getFullKey (AzureBlobStorage.basePath self) blobKey) in
  (delete blockBlobClient = Rejected error ->
   AzureBlobStorage.deleteBlob (Fulfilled self) blobKey w = (w, Fulfilled JsUndefined))
  /\ (credentialIsAnonymous (AzureBlobStorage.containerClient self) = true ->
      AzureBlobStorage.getDownloadUrl self blobKey w
      = (w, Fulfilled (JsString (url blockBlobClient))))
  /\ (credentialIsAnonymous (AzureBlobStorage.containerClient self) = false ->
      generateSasUrl blockBlobClient = Rejected error ->
      AzureBlobStorage.getDownloadUrl self blobKey w = (w, Fulfilled JsNull)).
Proof.
  intros Hstatus blockBlobClient. split; [| split].
  - intros Hdelete.
    unfold AzureBlobStorage.deleteBlob, tryCatch, bind, await.
    fold blockBlobClient. rewrite Hdelete, Hstatus. reflexivity.
  - intros Hcredential. now apply getDownloadUrl_anonymous.
  - intros Hcredential Hsas.
    unfold AzureBlobStorage.getDownloadUrl, tryCatch, bind, await.
    fold blockBlobClient. rewrite Hcredential. cbn [negb].
    rewrite Hsas, Hstatus. reflexivity.
Qed.

Lemma not_found_is_not_an_error_witness :
  let self := exampleStorage [] missingClient reliableBatchClient in
  AzureBlobStorage.deleteBlob (Fulfilled self) "gone.png" emptyWorld
  = (emptyWorld, Fulfilled JsUndefined)
  /\ AzureBlobStorage.getDownloadUrl self "gone.png" emptyWorld
     = (emptyWorld, Fulfilled JsNull).
Proof.
  destruct (not_found_is_not_an_error
              (exampleStorage [] missingClient reliableBatchClient)
              "gone.png" blobNotFound emptyWorld eq_refl) as (Hdelete & _ & Hurl).
  split; [apply Hdelete | apply Hurl]; reflexivity.
Defined.

(** * Further properties *)

(** ** Key resolution *)

Lemma isStorageKey_iff (key : string) :
  isStorageKey key = true
  <-> includesChar backslash key = false
      /\ hasSlashRun key = false
      /\ startsWith key "/" = false
      /\ endsWith key "/" = false.
Proof.
  unfold isStorageKey.
  rewrite !andb_true_iff, !negb_true_iff. tauto.
Qed.

Lemma replaceBackslashes_id (value : string) :
  includesChar backslash value = false -> replaceBackslashes value = value.
Proof.
  induction value as [| c rest IH]; [reflexivity |].
  rewrite includesChar_cons. intros H. apply orb_false_iff in H as [Hc Hrest].
  cbn [replaceBackslashes]. unfold isBackslash. now rewrite Hc, IH.
Qed.

Lemma replaceSlashRuns_id (value : string) :
  hasSlashRun value = false -> replaceSlashRuns value = value.
Proof.
  induction value as [| c rest IH]; [reflexivity |].
  destruct rest as [| c' rest']; [reflexivity |].
  rewrite hasSlashRun_cons2. intros H. apply orb_false_iff in H as [Hcc Hrest].
  rewrite replaceSlashRuns_cons2, Hcc. now rewrite IH.
Qed.

(** X1.  Whatever it is given, [normalizePath] of [azureBlobStorage.ts]
    returns a string without a backslash and without two adjacent
    slashes. *)
Theorem normalizePath_output (value : string) :
  includesChar backslash (AzureBlobStorage.normalizePath value) = false
  /\ hasSlashRun (AzureBlobStorage.normalizePath value) = false.
Proof.
  split; [apply normalizePath_no_backslash | apply normalizePath_no_slash_run].
Qed.

Lemma normalizePath_keeps_storage_key_aux (key : string) :
  isStorageKey key = true ->
  AzureBlobStorage.normalizePath key = key.
Proof.
  intros Hkey. apply isStorageKey_iff in Hkey as (Hback & Hrun & Hstart & Hend).
  unfold AzureBlobStorage.normalizePath.
  rewrite (replaceBackslashes_id _ Hback), Hstart, Hend.
  now apply replaceSlashRuns_id.
Qed.

(** X2.  [normalizePath] of [azureBlobStorage.ts] leaves a key that is
    already a storage key as it is. *)
Theorem normalizePath_keeps_storage_key (key : string) :
  isStorageKey key = true ->
  AzureBlobStorage.normalizePath key = key.
Proof. apply normalizePath_keeps_storage_key_aux. Qed.

Lemma normalizePath_keeps_storage_key_witness :
  AzureBlobStorage.normalizePath "images/2020/logo.png" = "images/2020/logo.png".
Proof.
  apply (normalizePath_keeps_storage_key "images/2020/logo.png"). reflexivity.
Defined.

Lemma base_normalizePath_fixes (key : string) :
  isStorageKey key = true -> AzureBlobStorageBase.normalizePath key = key.
Proof.
  intros Hkey. apply isStorageKey_iff in Hkey as (Hback & Hrun & Hstart & Hend).
  unfold AzureBlobStorageBase.normalizePath.
  now rewrite (replaceBackslashes_id _ Hback), (replaceSlashRuns_id _ Hrun), Hstart, Hend.
Qed.

(** X3.  In the abstract base class [normalizePath] always returns a
    storage key, and so does [getFullKey] for every base path and key;
    [normalizePath] is idempotent. *)
Theorem base_keys_are_storage_keys (value basePath blobKey : string) :
  isStorageKey (AzureBlobStorageBase.normalizePath value) = true
  /\ isStorageKey (AzureBlobStorageBase.getFullKey basePath blobKey) = true
  /\ AzureBlobStorageBase.normalizePath (AzureBlobStorageBase.normalizePath value)
     = AzureBlobStorageBase.normalizePath value.
Proof.
  split; [apply base_normalizePath_isStorageKey |].
  split; [apply base_getFullKey_isStorageKey |].
  apply base_normalizePath_fixes, base_normalizePath_isStorageKey.
Qed.

Lemma startsWith_slashes_cons (c c' : ascii) (rest : string) :
  startsWith (String c (String c' rest)) "//" = isSlash c && isSlash c'.
Proof.
  unfold startsWith, isSlash, slash. cbn [prefix].
  destruct (ascii_dec "/" c) as [<- | Hc].
  - destruct (ascii_dec "/" c') as [<- | Hc'].
    + now destruct rest.
    + symmetry. cbn [andb Ascii.eqb Bool.eqb]. apply Ascii.eqb_neq. congruence.
  - symmetry. apply andb_false_iff. left. apply Ascii.eqb_neq. congruence.
Qed.

Lemma endsWith_slashes_tail (c : ascii) (rest : string) :
  endsWith (String c rest) "//" = false -> endsWith rest "//" = false.
Proof.
  cbn [endsWith]. intros H. now apply orb_false_iff in H.
Qed.

Lemma endsWith_slashes_pair (c c' : ascii) :
  endsWith (String c (String c' EmptyString)) "//" = isSlash c && isSlash c'.
Proof.
  unfold isSlash, slash. cbn [endsWith String.eqb].
  destruct (Ascii.eqb c "/"), (Ascii.eqb c' "/"); reflexivity.
Qed.

Lemma startsWith_replaceSlashRuns (value : string) :
  startsWith (replaceSlashRuns value) "/" = startsWith value "/".
Proof.
  destruct value as [| c rest]; [reflexivity |].
  destruct (replaceSlashRuns_head c rest) as [tail ->].
  now rewrite !startsWith_slash_cons.
Qed.

Lemma endsWith_replaceSlashRuns (value : string) :
  endsWith (replaceSlashRuns value) "/" = endsWith value "/".
Proof.
  induction value as [| c rest IH]; [reflexivity |].
  destruct rest as [| c' rest']; [reflexivity |].
  rewrite replaceSlashRuns_cons2, endsWith_slash_cons.
  destruct (isSlash c && isSlash c'); [exact IH |].
  destruct (replaceSlashRuns_head c' rest') as [tail Htail].
  rewrite Htail in *. now rewrite endsWith_slash_cons.
Qed.

Lemma endsWith_sliceInit_single (value : string) :
  endsWith value "/" = true ->
  endsWith value "//" = false ->
  endsWith (sliceInit value) "/" = false.
Proof.
  induction value as [| c rest IH]; [reflexivity |].
  destruct rest as [| c' rest']; [reflexivity |].
  intros Hone Htwo.
  rewrite endsWith_slash_cons in Hone.
  destruct rest' as [| c'' rest''].
  - rewrite endsWith_slash_single in Hone.
    rewrite endsWith_slashes_pair, Hone, andb_true_r in Htwo.
    cbn [sliceInit]. now rewrite endsWith_slash_single.
  - rewrite sliceInit_cons2.
    pose proof (endsWith_slashes_tail _ _ Htwo) as Htail.
    specialize (IH Hone Htail).
    rewrite sliceInit_cons2 in *.
    now rewrite endsWith_slash_cons.
Qed.

(** X4.  [normalizePath] of [azureBlobStorage.ts] returns a storage key
    whenever the path, its backslashes read as slashes, neither begins nor
    ends with two slashes. *)
Theorem normalizePath_storage_key (value : string) :
  startsWith (replaceBackslashes value) "//" = false ->
  endsWith (replaceBackslashes value) "//" = false ->
  isStorageKey (AzureBlobStorage.normalizePath value) = true.
Proof.
  intros Hstart2 Hend2.
  apply isStorageKey_iff.
  split; [apply normalizePath_no_backslash |].
  split; [apply normalizePath_no_slash_run |].
  unfold AzureBlobStorage.normalizePath.
  rewrite startsWith_replaceSlashRuns, endsWith_replaceSlashRuns.
  set (r := replaceBackslashes value) in *.
  set (v1 := if startsWith r "/" then substringFrom 1 r else r).
  assert (Hstart1 : startsWith v1 "/" = false).
  { subst v1. destruct (startsWith r "/") eqn:Hstart; [| exact Hstart].
    destruct r as [| c rest]; [reflexivity |].
    rewrite startsWith_slash_cons in Hstart.
    destruct rest as [| c' rest']; [reflexivity |].
    rewrite startsWith_slashes_cons, Hstart in Hstart2.
    cbn [substringFrom]. now rewrite startsWith_slash_cons. }
  assert (Hend1 : endsWith v1 "//" = false).
  { subst v1. destruct (startsWith r "/"); [| exact Hend2].
    destruct r as [| c rest]; [reflexivity |].
    exact (endsWith_slashes_tail _ _ Hend2). }
  destruct (endsWith v1 "/") eqn:Hend.
  - split; [now apply startsWith_sliceInit | now apply endsWith_sliceInit_single].
  - split; assumption.
Qed.

Lemma normalizePath_storage_key_witness :
  isStorageKey (AzureBlobStorage.normalizePath "\images\\2020//logo.png/") = true.
Proof.
  apply (normalizePath_storage_key "\images\\2020//logo.png/"); reflexivity.
Defined.

Lemma startsWith_append (a b : string) :
  a <> EmptyString -> startsWith (a ++ b) "/" = startsWith a "/".
Proof.
  destruct a as [| c rest]; [congruence |]. intros _.
  cbn [append]. now rewrite !startsWith_slash_cons.
Qed.

Lemma endsWith_append (a b : string) :
  b <> EmptyString -> endsWith (a ++ b) "/" = endsWith b "/".
Proof.
  intros Hb. induction a as [| c rest IH]; [reflexivity |].
  cbn [append]. destruct (rest ++ b) as [| c' tail] eqn:Htail.
  - destruct rest; cbn [append] in Htail; congruence.
  - now rewrite endsWith_slash_cons.
Qed.

Lemma hasSlashRun_append (a b : string) :
  hasSlashRun a = false ->
  hasSlashRun b = false ->
  endsWith a "/" = false \/ startsWith b "/" = false ->
  hasSlashRun (a ++ b) = false.
Proof.
  induction a as [| c rest IH]; intros Ha Hb Hjoin; [exact Hb |].
  destruct rest as [| c' rest'].
  - cbn [append]. destruct b as [| d b']; [reflexivity |].
    rewrite hasSlashRun_cons2, Hb, orb_false_r.
    rewrite endsWith_slash_single, startsWith_slash_cons in Hjoin.
    apply andb_false_iff. exact Hjoin.
  - rewrite hasSlashRun_cons2 in Ha. apply orb_false_iff in Ha as [Hcc Hrest].
    rewrite endsWith_slash_cons in Hjoin.
    change ((String c (String c' rest') ++ b))
      with (String c (String c' (rest' ++ b))).
    rewrite hasSlashRun_cons2, Hcc. cbn [orb].
    exact (IH Hrest Hb Hjoin).
Qed.

(** A non-empty storage key, a slash and a non-empty storage key make a
    storage key. *)
Lemma isStorageKey_join (a b : string) :
  isStorageKey a = true -> a <> EmptyString ->
  isStorageKey b = true -> b <> EmptyString ->
  isStorageKey (a ++ "/" ++ b) = true.
Proof.
  intros Ha Hane Hb Hbne.
  apply isStorageKey_iff in Ha as (Haback & Harun & Hastart & Haend).
  apply isStorageKey_iff in Hb as (Hbback & Hbrun & Hbstart & Hbend).
  apply isStorageKey_iff.
  change ("/" ++ b) with (String slash b).
  split; [| split; [| split]].
  - rewrite includesChar_append, includesChar_cons, Haback, Hbback. reflexivity.
  - apply hasSlashRun_append; [exact Harun | | now left].
    destruct b as [| d b']; [congruence |].
    rewrite hasSlashRun_cons2, Hbrun, orb_false_r.
    rewrite startsWith_slash_cons in Hbstart. now rewrite Hbstart, andb_false_r.
  - now rewrite startsWith_append.
  - rewrite endsWith_append by discriminate.
    destruct b as [| d b']; [congruence |].
    now rewrite endsWith_slash_cons.
Qed.

(** X5.  [getFullKey] of [azureBlobStorage.ts] returns a storage key when
    the base path is a non-empty storage key and the key normalises to a
    non-empty storage key. *)
Theorem getFullKey_storage_key (basePath blobKey : string) :
  isStorageKey basePath = true ->
  basePath <> EmptyString ->
  isStorageKey (AzureBlobStorage.normalizePath blobKey) = true ->
  AzureBlobStorage.normalizePath blobKey <> EmptyString ->
  isStorageKey (AzureBlobStorage.getFullKey basePath blobKey) = true.
Proof.
  intros Hbase Hbasene Hkey Hkeyne.
  unfold AzureBlobStorage.getFullKey. now apply isStorageKey_join.
Qed.

Lemma getFullKey_storage_key_witness :
  isStorageKey (AzureBlobStorage.getFullKey "site/media" "\images//logo.png/") = true.
Proof.
  apply (getFullKey_storage_key "site/media" "\images//logo.png/");
    (reflexivity || discriminate).
Defined.

(** X6.  On a base path and a key that are non-empty storage keys the two
    revisions of [getFullKey] agree: both return the base path, a slash and
    the key. *)
Theorem getFullKey_revisions_agree (basePath blobKey : string) :
  isStorageKey basePath = true ->
  basePath <> EmptyString ->
  isStorageKey blobKey = true ->
  blobKey <> EmptyString ->
  AzureBlobStorage.getFullKey basePath blobKey = basePath ++ "/" ++ blobKey
  /\ AzureBlobStorageBase.getFullKey basePath blobKey = basePath ++ "/" ++ blobKey.
Proof.
  intros Hbase Hbasene Hkey Hkeyne. split.
  - unfold AzureBlobStorage.getFullKey.
    now rewrite normalizePath_keeps_storage_key_aux.
  - unfold AzureBlobStorageBase.getFullKey.
    destruct basePath as [| c rest]; [congruence |].
    cbn [String.length Nat.eqb].
    apply base_normalizePath_fixes. now apply isStorageKey_join.
Qed.

Lemma getFullKey_revisions_agree_witness :
  AzureBlobStorage.getFullKey "site" "images/logo.png" = "site" ++ "/" ++ "images/logo.png"
  /\ AzureBlobStorageBase.getFullKey "site" "images/logo.png"
     = "site" ++ "/" ++ "images/logo.png".
Proof.
  apply (getFullKey_revisions_agree "site" "images/logo.png");
    (reflexivity || discriminate).
Defined.

(** ** Splitting and joining *)

Lemma splitString_cons (separator c : ascii) (rest : string) :
  splitString separator (String c rest)
  = if Ascii.eqb c separator then EmptyString :: splitString separator rest
    else String c (hd EmptyString (splitString separator rest))
         :: tl (splitString separator rest).
Proof.
  cbn [splitString]. destruct (Ascii.eqb c separator); [reflexivity |].
  destruct (splitString separator rest) as [| segment segments] eqn:Hsplit;
    [| reflexivity].
  destruct rest as [| c' rest']; cbn [splitString] in Hsplit; [discriminate |].
  destruct (Ascii.eqb c' separator); [discriminate |].
  destruct (splitString separator rest'); discriminate.
Qed.

Lemma splitString_hd_tl (separator : ascii) (value : string) :
  splitString separator value
  = hd EmptyString (splitString separator value) :: tl (splitString separator value).
Proof.
  destruct value as [| c rest]; [reflexivity |].
  rewrite splitString_cons. now destruct (Ascii.eqb c separator).
Qed.

Lemma splitString_append (separator : ascii) (a b : string) :
  splitString separator (a ++ String separator b)
  = (splitString separator a ++ splitString separator b)%list.
Proof.
  induction a as [| c rest IH].
  - cbn [append]. rewrite splitString_cons, Ascii.eqb_refl. reflexivity.
  - cbn [append]. rewrite !splitString_cons, IH.
    destruct (Ascii.eqb c separator); [reflexivity |].
    rewrite (splitString_hd_tl separator rest) at 1 2. reflexivity.
Qed.

Lemma concat_cons2 (separator first second : string) (rest : list string) :
  String.concat separator (first :: second :: rest)
  = first ++ separator ++ String.concat separator (second :: rest).
Proof. reflexivity. Qed.

Lemma concat_splitString (separator : ascii) (value : string) :
  String.concat (String separator EmptyString) (splitString separator value) = value.
Proof.
  induction value as [| c rest IH]; [reflexivity |].
  rewrite splitString_cons.
  rewrite (splitString_hd_tl separator rest) in IH.
  destruct (Ascii.eqb c separator) eqn:Hc.
  - apply Ascii.eqb_eq in Hc. subst c.
    rewrite (splitString_hd_tl separator rest), concat_cons2, IH. reflexivity.
  - destruct (tl (splitString separator rest)) as [| second others].
    + cbn [String.concat] in *. now rewrite IH.
    + rewrite concat_cons2 in *. rewrite <- IH at 2. reflexivity.
Qed.

Lemma splitString_no_separator (separator : ascii) (value : string) :
  Forall (fun segment => includesChar separator segment = false)
         (splitString separator value).
Proof.
  induction value as [| c rest IH]; [repeat constructor |].
  rewrite splitString_cons.
  rewrite (splitString_hd_tl separator rest) in IH.
  inversion IH as [| ? ? Hhd Htl]; subst.
  destruct (Ascii.eqb c separator) eqn:Hc.
  - constructor; [reflexivity |]. rewrite (splitString_hd_tl separator rest).
    now constructor.
  - constructor; [| exact Htl].
    now rewrite includesChar_cons, Hc, Hhd.
Qed.

Lemma splitString_single (separator : ascii) (value : string) :
  includesChar separator value = false ->
  splitString separator value = [value].
Proof.
  induction value as [| c rest IH]; [reflexivity |].
  rewrite includesChar_cons. intros H. apply orb_false_iff in H as [Hc Hrest].
  rewrite splitString_cons, Hc, (IH Hrest). reflexivity.
Qed.

(** X7.  The file name [uploadBlob] reads off a key, [split("/").pop()],
    is what follows the last slash: for a name without a slash, the file
    name of [dir/name] is [name] whatever [dir] is, and the file name of
    [name] alone is [name]. *)
Theorem fileNameOf_last_segment (dir fileName : string) :
  includesChar slash fileName = false ->
  fileNameOf (dir ++ "/" ++ fileName) = fileName
  /\ fileNameOf fileName = fileName.
Proof.
  intros Hname. unfold fileNameOf.
  change ("/" ++ fileName) with (String slash fileName).
  rewrite splitString_append, (splitString_single _ _ Hname).
  split; [apply last_last | reflexivity].
Qed.

Lemma fileNameOf_last_segment_witness :
  fileNameOf ("site/images" ++ "/" ++ "logo.png") = "logo.png"
  /\ fileNameOf "logo.png" = "logo.png".
Proof.
  apply (fileNameOf_last_segment "site/images" "logo.png"). reflexivity.
Defined.

Lemma last_app_cons {A : Type} (front : list A) (x d : A) (back : list A) :
  List.last (front ++ x :: back) d = List.last (x :: back) d.
Proof.
  induction front as [| y front IH]; [reflexivity |].
  rewrite <- IH. cbn [app].
  destruct (front ++ x :: back)%list eqn:Happ; [| reflexivity].
  destruct front; discriminate.
Qed.

Lemma fileNameOf_append (a b : string) :
  fileNameOf (a ++ "/" ++ b) = fileNameOf b.
Proof.
  unfold fileNameOf.
  change ("/" ++ b) with (String slash b).
  rewrite splitString_append, (splitString_hd_tl slash b).
  apply last_app_cons.
Qed.

(** X8.  The content type [uploadBlob] of [azureBlobStorage.ts] settles on
    does not depend on the base path: it is decided by the content type
    given and by the file name of the normalised key. *)
Theorem contentTypeFor_ignores_basePath (transfer : BlobTransfer)
  (basePath blobKey : string) (contentType : option string) :
  AzureBlobStorage.contentTypeFor transfer
    (AzureBlobStorage.getFullKey basePath blobKey) contentType
  = AzureBlobStorage.contentTypeFor transfer
      (AzureBlobStorage.normalizePath blobKey) contentType.
Proof.
  unfold AzureBlobStorage.contentTypeFor, AzureBlobStorage.getFullKey.
  now rewrite fileNameOf_append.
Qed.

(** X9.  [removeQueryParameters] of the server adapter cuts a URL at its
    first question mark: the result holds no question mark, a URL without
    one is returned as it is, and whatever follows the first question mark
    is dropped. *)
Theorem removeQueryParameters_cuts_query (url query : string) :
  includesChar "?" (ServerAzureBlobStorage.removeQueryParameters url) = false
  /\ (includesChar "?" url = false ->
      ServerAzureBlobStorage.removeQueryParameters url = url
      /\ ServerAzureBlobStorage.removeQueryParameters (url ++ "?" ++ query) = url).
Proof.
  unfold ServerAzureBlobStorage.removeQueryParameters. split.
  - pose proof (splitString_no_separator "?" url) as Hall.
    rewrite (splitString_hd_tl "?" url) in Hall.
    now inversion Hall.
  - intros Hurl.
    change ("?" ++ query) with (String "?"%char query).
    rewrite splitString_append, (splitString_single _ _ Hurl).
    split; reflexivity.
Qed.

(** ** Path segments *)

Lemma pathSegments_split (path : string) :
  pathSegments path
  = ((if nonEmpty (hd EmptyString (splitString slash path))
      then [hd EmptyString (splitString slash path)] else [])
     ++ filter nonEmpty (tl (splitString slash path)))%list.
Proof.
  unfold pathSegments. rewrite (splitString_hd_tl slash path) at 1.
  cbn [filter]. now destruct (nonEmpty _).
Qed.

Lemma pathSegments_slash_cons (path : string) :
  pathSegments (String slash path) = pathSegments path.
Proof.
  unfold pathSegments. rewrite splitString_cons, Ascii.eqb_refl. reflexivity.
Qed.

Lemma splitString_replaceSlashRuns (path : string) :
  hd EmptyString (splitString slash (replaceSlashRuns path))
  = hd EmptyString (splitString slash path)
  /\ filter nonEmpty (tl (splitString slash (replaceSlashRuns path)))
     = filter nonEmpty (tl (splitString slash path)).
Proof.
  induction path as [| c rest IH]; [split; reflexivity |].
  destruct rest as [| c' rest']; [split; reflexivity |].
  destruct IH as [IHhd IHtl].
  rewrite replaceSlashRuns_cons2.
  destruct (isSlash c && isSlash c') eqn:Hrun.
  - apply andb_true_iff in Hrun as [Hc Hc'].
    apply isSlash_eq in Hc, Hc'. subst c c'.
    rewrite IHhd, IHtl.
    rewrite !splitString_cons, !Ascii.eqb_refl. cbn [hd tl filter nonEmpty].
    split; reflexivity.
  - rewrite (splitString_cons slash c (replaceSlashRuns (String c' rest'))).
    rewrite (splitString_cons slash c (String c' rest')).
    destruct (Ascii.eqb c slash).
    + cbn [hd tl]. split; [reflexivity |].
      rewrite (splitString_hd_tl slash (replaceSlashRuns (String c' rest'))).
      rewrite (splitString_hd_tl slash (String c' rest')).
      cbn [filter]. now rewrite IHhd, IHtl.
    + cbn [hd tl]. now rewrite IHhd, IHtl.
Qed.

Lemma pathSegments_replaceSlashRuns (path : string) :
  pathSegments (replaceSlashRuns path) = pathSegments path.
Proof.
  destruct (splitString_replaceSlashRuns path) as [Hhd Htl].
  now rewrite !pathSegments_split, Hhd, Htl.
Qed.

Lemma sliceInit_append (path : string) :
  endsWith path "/" = true -> path = sliceInit path ++ "/".
Proof.
  induction path as [| c rest IH]; [discriminate |].
  destruct rest as [| c' rest'].
  - rewrite endsWith_slash_single. intros Hc. apply isSlash_eq in Hc. now subst c.
  - rewrite endsWith_slash_cons, sliceInit_cons2. intros Hends.
    cbn [append]. now rewrite <- IH.
Qed.

Lemma pathSegments_sliceInit (path : string) :
  endsWith path "/" = true -> pathSegments (sliceInit path) = pathSegments path.
Proof.
  intros Hends. rewrite (sliceInit_append path Hends) at 2.
  unfold pathSegments.
  change (sliceInit path ++ "/") with (sliceInit path ++ String slash EmptyString).
  rewrite splitString_append, filter_app. cbn. now rewrite app_nil_r.
Qed.

Lemma splitString_tail_nonEmpty (path : string) :
  hasSlashRun path = false ->
  endsWith path "/" = false ->
  Forall (fun segment => nonEmpty segment = true) (tl (splitString slash path)).
Proof.
  induction path as [| c rest IH]; intros Hrun Hends; [constructor |].
  pose proof (hasSlashRun_tail _ _ Hrun) as Hrest.
  rewrite splitString_cons.
  destruct (Ascii.eqb c slash) eqn:Hc.
  - cbn [tl]. destruct rest as [| c' rest'].
    + rewrite endsWith_slash_single in Hends. unfold isSlash in Hends. congruence.
    + rewrite endsWith_slash_cons in Hends.
      rewrite hasSlashRun_cons2 in Hrun. apply orb_false_iff in Hrun as [Hcc _].
      unfold isSlash in Hcc. rewrite Hc in Hcc. cbn [andb] in Hcc.
      rewrite (splitString_hd_tl slash (String c' rest')).
      constructor; [| now apply IH].
      rewrite splitString_cons, Hcc. reflexivity.
  - cbn [tl]. apply IH; [exact Hrest |].
    destruct rest as [| c' rest']; [reflexivity |].
    now rewrite endsWith_slash_cons in Hends.
Qed.

Lemma filter_all {A : Type} (f : A -> bool) (l : list A) :
  Forall (fun x => f x = true) l -> filter f l = l.
Proof.
  induction 1 as [| x l Hx _ IH]; [reflexivity |].
  cbn [filter]. now rewrite Hx, IH.
Qed.

(** A string without a run of slashes and without a slash at either end
    is its segments joined by slashes. *)
Lemma concat_pathSegments (path : string) :
  hasSlashRun path = false ->
  startsWith path "/" = false ->
  endsWith path "/" = false ->
  String.concat "/" (pathSegments path) = path.
Proof.
  intros Hrun Hstart Hends.
  destruct path as [| c rest]; [reflexivity |].
  pose proof (splitString_tail_nonEmpty _ Hrun Hends) as Htail.
  rewrite startsWith_slash_cons in Hstart. unfold isSlash in Hstart.
  unfold pathSegments.
  rewrite filter_all; [apply (concat_splitString slash) |].
  rewrite (splitString_hd_tl slash (String c rest)).
  constructor; [| exact Htail].
  rewrite splitString_cons, Hstart. reflexivity.
Qed.

Lemma pathSegments_base_normalizePath (value : string) :
  pathSegments (AzureBlobStorageBase.normalizePath value)
  = pathSegments (replaceBackslashes value).
Proof.
  unfold AzureBlobStorageBase.normalizePath.
  rewrite <- (pathSegments_replaceSlashRuns (replaceBackslashes value)).
  set (collapsed := replaceSlashRuns (replaceBackslashes value)).
  assert (Hfirst :
    pathSegments (if startsWith collapsed "/" then substringFrom 1 collapsed
                  else collapsed)
    = pathSegments collapsed).
  { destruct (startsWith collapsed "/") eqn:Hstart; [| reflexivity].
    destruct collapsed as [| c rest]; [discriminate |].
    rewrite startsWith_slash_cons in Hstart. apply isSlash_eq in Hstart. subst c.
    cbn [substringFrom]. now rewrite pathSegments_slash_cons. }
  destruct (endsWith _ "/") eqn:Hends; [| exact Hfirst].
  now rewrite pathSegments_sliceInit.
Qed.

(** X10.  In the abstract base class a normalised path is the path's
    segments, its backslashes read as slashes and its empty segments
    dropped, joined by single slashes. *)
Theorem base_normalizePath_segments (value : string) :
  AzureBlobStorageBase.normalizePath value
  = String.concat "/" (pathSegments (replaceBackslashes value)).
Proof.
  rewrite <- pathSegments_base_normalizePath.
  pose proof (base_normalizePath_isStorageKey value) as Hkey.
  apply isStorageKey_iff in Hkey as (_ & Hrun & Hstart & Hends).
  symmetry. now apply concat_pathSegments.
Qed.

Lemma replaceBackslashes_append (a b : string) :
  replaceBackslashes (a ++ b) = replaceBackslashes a ++ replaceBackslashes b.
Proof.
  induction a as [| c rest IH]; [reflexivity |].
  cbn [append replaceBackslashes]. now rewrite IH.
Qed.

Lemma base_getFullKey_pathSegments (basePath blobKey : string) :
  pathSegments (AzureBlobStorageBase.getFullKey basePath blobKey)
  = (pathSegments (replaceBackslashes basePath)
     ++ pathSegments (replaceBackslashes blobKey))%list.
Proof.
  unfold AzureBlobStorageBase.getFullKey.
  rewrite pathSegments_base_normalizePath.
  destruct basePath as [| c rest]; [reflexivity |].
  cbn [String.length Nat.eqb].
  rewrite replaceBackslashes_append.
  change (replaceBackslashes ("/" ++ blobKey))
    with (String slash (replaceBackslashes blobKey)).
  unfold pathSegments. now rewrite splitString_append, filter_app.
Qed.

(** X11.  In the abstract base class the resolved key is the segments of
    the base path followed by the segments of the key, joined by single
    slashes; an empty base path contributes nothing. *)
Theorem base_getFullKey_segments (basePath blobKey : string) :
  AzureBlobStorageBase.getFullKey basePath blobKey
  = String.concat "/"
      (pathSegments (replaceBackslashes basePath)
       ++ pathSegments (replaceBackslashes blobKey)).
Proof.
  rewrite <- base_getFullKey_pathSegments.
  pose proof (base_getFullKey_isStorageKey basePath blobKey) as Hkey.
  apply isStorageKey_iff in Hkey as (_ & Hrun & Hstart & Hends).
  symmetry. now apply concat_pathSegments.
Qed.

(** X12.  In the abstract base class it makes no difference to
    [getFullKey] whether the base path or the key has been normalised
    beforehand, as [initContainer] does with the base path. *)
Theorem base_getFullKey_normalised_arguments (basePath blobKey : string) :
  AzureBlobStorageBase.getFullKey (AzureBlobStorageBase.normalizePath basePath) blobKey
  = AzureBlobStorageBase.getFullKey basePath blobKey
  /\ AzureBlobStorageBase.getFullKey basePath (AzureBlobStorageBase.normalizePath blobKey)
     = AzureBlobStorageBase.getFullKey basePath blobKey.
Proof.
  assert (Hsegments : forall value,
    pathSegments (replaceBackslashes (AzureBlobStorageBase.normalizePath value))
    = pathSegments (replaceBackslashes value)).
  { intros value.
    pose proof (base_normalizePath_isStorageKey value) as Hkey.
    apply isStorageKey_iff in Hkey as (Hback & _).
    rewrite (replaceBackslashes_id _ Hback).
    apply pathSegments_base_normalizePath. }
  assert (Hkeys : forall a b a' b',
    pathSegments (replaceBackslashes a) = pathSegments (replaceBackslashes a') ->
    pathSegments (replaceBackslashes b) = pathSegments (replaceBackslashes b') ->
    AzureBlobStorageBase.getFullKey a b = AzureBlobStorageBase.getFullKey a' b').
  { intros a b a' b' Ha Hb.
    pose proof (base_getFullKey_isStorageKey a b) as Hkey.
    pose proof (base_getFullKey_isStorageKey a' b') as Hkey'.
    apply isStorageKey_iff in Hkey as (_ & Hrun & Hstart & Hends).
    apply isStorageKey_iff in Hkey' as (_ & Hrun' & Hstart' & Hends').
    rewrite <- (concat_pathSegments _ Hrun Hstart Hends).
    rewrite <- (concat_pathSegments _ Hrun' Hstart' Hends').
    now rewrite !base_getFullKey_pathSegments, Ha, Hb. }
  split; apply Hkeys; auto.
Qed.

(** ** Counting and locating chunks *)

Lemma fullChunks_count {A : Type} (chunkSize : Z) (chunks : list (list A)) :
  1 <= chunkSize ->
  fullChunks chunkSize chunks = true ->
  Z.of_nat (List.length chunks)
  = (Z.of_nat (List.length (List.concat chunks)) + chunkSize - 1) / chunkSize.
Proof.
  intros Hsize.
  induction chunks as [| chunk rest IH]; intros Hfull.
  - cbn [List.concat List.length]. symmetry. apply Z.div_small. lia.
  - destruct rest as [| next rest'].
    + cbn [fullChunks] in Hfull. apply andb_true_iff in Hfull as [Hlo Hhi].
      apply Z.leb_le in Hlo, Hhi.
      cbn [List.concat List.length]. rewrite app_nil_r.
      apply Z.div_unique with (r := Z.of_nat (List.length chunk) - 1); lia.
    + rewrite fullChunks_cons in Hfull. apply andb_true_iff in Hfull as [Hlen Hrest].
      apply Z.eqb_eq in Hlen. specialize (IH Hrest).
      change (List.concat (chunk :: next :: rest'))
        with (chunk ++ List.concat (next :: rest'))%list.
      rewrite length_app, Nat2Z.inj_add, Hlen.
      change (List.length (chunk :: next :: rest'))
        with (S (List.length (next :: rest'))).
      rewrite Nat2Z.inj_succ, IH.
      replace (chunkSize + Z.of_nat (List.length (List.concat (next :: rest')))
               + chunkSize - 1)
        with ((Z.of_nat (List.length (List.concat (next :: rest'))) + chunkSize - 1)
              + 1 * chunkSize) by lia.
      rewrite Z.div_add by lia. lia.
Qed.

Lemma fullChunks_nth {A : Type} (size : nat) (chunks : list (list A)) :
  (1 <= size)%nat ->
  fullChunks (Z.of_nat size) chunks = true ->
  forall index,
    (index < List.length chunks)%nat ->
    nth_error chunks index
    = Some (firstn size (skipn (index * size) (List.concat chunks))).
Proof.
  intros Hsize.
  induction chunks as [| chunk rest IH]; intros Hfull index Hindex;
    [cbn in Hindex; lia |].
  destruct rest as [| next rest'].
  - cbn [fullChunks] in Hfull. apply andb_true_iff in Hfull as [_ Hhi].
    apply Z.leb_le in Hhi.
    destruct index as [| index]; [| cbn in Hindex; lia].
    cbn [nth_error List.concat Nat.mul skipn]. rewrite app_nil_r.
    rewrite firstn_all2 by lia. reflexivity.
  - rewrite fullChunks_cons in Hfull. apply andb_true_iff in Hfull as [Hlen Hrest].
    apply Z.eqb_eq in Hlen.
    assert (Hchunk : List.length chunk = size) by lia.
    change (List.concat (chunk :: next :: rest'))
      with (chunk ++ List.concat (next :: rest'))%list.
    destruct index as [| index].
    + cbn [nth_error Nat.mul skipn].
      rewrite firstn_app, Hchunk, Nat.sub_diag, firstn_O, app_nil_r.
      rewrite <- Hchunk at 1. now rewrite firstn_all.
    + cbn [nth_error].
      rewrite (IH Hrest index) by (cbn [List.length] in Hindex |- *; lia).
      f_equal. f_equal.
      replace (S index * size)%nat with (List.length chunk + index * size)%nat
        by (rewrite Hchunk; lia).
      rewrite skipn_app. rewrite (skipn_all2 chunk) by lia.
      replace (List.length chunk + index * size - List.length chunk)%nat
        with (index * size)%nat by lia.
      reflexivity.
Qed.

(** X13.  For a chunk size of at least one [chunkArray] returns as many
    chunks as the length of the array divided by the chunk size, rounded
    up. *)
Theorem chunkArray_count {A : Type} (xs : list A) (chunkSize : Z) (fuel : nat) :
  1 <= chunkSize ->
  (List.length xs <= fuel)%nat ->
  exists chunks srcArray,
    AzureBlobStorage.chunkArray fuel xs chunkSize = Some (chunks, srcArray)
    /\ Z.of_nat (List.length chunks)
       = (Z.of_nat (List.length xs) + chunkSize - 1) / chunkSize.
Proof.
  intros Hsize Hfuel.
  destruct (chunkArrayLoop_positive chunkSize Hsize fuel xs [] Hfuel)
    as (chunks & Hloop & Hconcat & Hfull & _).
  exists chunks, []. split; [exact Hloop |].
  rewrite <- Hconcat. now apply fullChunks_count.
Qed.

Lemma chunkArray_count_witness :
  exists chunks srcArray,
    AzureBlobStorage.chunkArray 7 ["a"; "b"; "c"; "d"; "e"; "f"; "g"] 3
    = Some (chunks, srcArray)
    /\ Z.of_nat (List.length chunks) = (Z.of_nat 7 + 3 - 1) / 3.
Proof.
  apply (chunkArray_count ["a"; "b"; "c"; "d"; "e"; "f"; "g"] 3 7);
    [lia | simpl; lia].
Defined.

(** X14.  The chunk [chunkArray] returns at position [index] is the slice
    of the original array that starts at [index * chunkSize] and has
    [chunkSize] elements, or as many as are left. *)
Theorem chunkArray_slices {A : Type} (xs : list A) (size : nat) (fuel : nat) :
  (1 <= size)%nat ->
  (List.length xs <= fuel)%nat ->
  exists chunks srcArray,
    AzureBlobStorage.chunkArray fuel xs (Z.of_nat size) = Some (chunks, srcArray)
    /\ forall index,
         (index < List.length chunks)%nat ->
         nth_error chunks index = Some (firstn size (skipn (index * size) xs)).
Proof.
  intros Hsize Hfuel.
  destruct (chunkArrayLoop_positive (Z.of_nat size) ltac:(lia) fuel xs [] Hfuel)
    as (chunks & Hloop & Hconcat & Hfull & _).
  exists chunks, []. split; [exact Hloop |].
  rewrite <- Hconcat. now apply fullChunks_nth.
Qed.

Lemma chunkArray_slices_witness :
  exists chunks srcArray,
    AzureBlobStorage.chunkArray 7 ["a"; "b"; "c"; "d"; "e"; "f"; "g"] (Z.of_nat 3)
    = Some (chunks, srcArray)
    /\ forall index,
         (index < List.length chunks)%nat ->
         nth_error chunks index
         = Some (firstn 3 (skipn (index * 3) ["a"; "b"; "c"; "d"; "e"; "f"; "g"])).
Proof.
  apply (chunkArray_slices ["a"; "b"; "c"; "d"; "e"; "f"; "g"] 3 7);
    [lia | simpl; lia].
Defined.

(** ** More on bulk delete *)

(** X15.  The number of batch-delete calls of [deleteBlobFolder]: none when
    no blob is listed, one for up to 255 blobs, and from 256 blobs on the
    number of blobs divided by 250, rounded up. *)
Theorem deleteBlobFolder_call_count (self : AzureBlobStorage.t)
  (batchClient : BlobBatchClient) (blobPrefix : string) (items : list BlobItem) :
  AzureBlobStorage.blobBatchClient self = Some batchClient ->
  listBlobsFlat (AzureBlobStorage.containerClient self)
    (AzureBlobStorage.getFullKey (AzureBlobStorage.basePath self) blobPrefix)
  = Fulfilled items ->
  let run := AzureBlobStorage.deleteBlobFolder self blobPrefix emptyWorld in
  let final := AzureBlobStorage.drainJobs self (fst run) in
  Z.of_nat (List.length (submitted final))
  = if (List.length items <? 256)%nat
    then (if (0 <? List.length items)%nat then 1 else 0)
    else (Z.of_nat (List.length items) + 249) / 250.
Proof.
  intros Hclient Hlist run final.
  destruct (deleteBlobFolder_drained self batchClient blobPrefix items Hclient Hlist)
    as (groups & Hconcat & Hsubmitted & _ & _ & Hnone & Hsmall & Hlarge).
  fold run in Hsubmitted. fold final in Hsubmitted.
  rewrite Hsubmitted, length_map.
  destruct (Nat.ltb_spec (List.length items) 256) as [Hlt | Hge].
  - destruct items as [| item rest].
    + now rewrite (Hnone eq_refl).
    + rewrite (Hsmall ltac:(discriminate) Hlt). reflexivity.
  - destruct (Hlarge Hge) as [Hfull _].
    rewrite (fullChunks_count 250 groups ltac:(lia) Hfull), Hconcat.
    rewrite (clientsOf_length self items). f_equal. lia.
Qed.

Lemma deleteBlobFolder_call_count_witness :
  let self := exampleStorage (exampleItems 600) exampleClient reliableBatchClient in
  let run := AzureBlobStorage.deleteBlobFolder self "folder" emptyWorld in
  let final := AzureBlobStorage.drainJobs self (fst run) in
  Z.of_nat (List.length (submitted final))
  = if (List.length (exampleItems 600) <? 256)%nat
    then (if (0 <? List.length (exampleItems 600))%nat then 1 else 0)
    else (Z.of_nat (List.length (exampleItems 600)) + 249) / 250.
Proof.
  apply (deleteBlobFolder_call_count
           (exampleStorage (exampleItems 600) exampleClient reliableBatchClient)
           reliableBatchClient "folder" (exampleItems 600));
    reflexivity.
Defined.

Lemma initContainer_without_connection_string (sdk : StorageSdk)
  (settingsProvider : SettingsProvider) (self : AzureBlobStorage.t) :
  truthySetting (settingsProvider "blobStorageConnectionString") = None ->
  AzureBlobStorage.initContainer sdk settingsProvider = Fulfilled self ->
  AzureBlobStorage.blobBatchClient self = None.
Proof.
  unfold AzureBlobStorage.initContainer. intros -> Hinit.
  destruct_matches Hinit; injection Hinit as <-; reflexivity.
Qed.

(** X16.  A storage initialised without a connection string, from a
    storage URL, cannot delete folders: [deleteBlobFolder] rejects with its
    own error before it lists or submits anything. *)
Theorem deleteBlobFolder_needs_connection_string (sdk : StorageSdk)
  (settingsProvider : SettingsProvider) (self : AzureBlobStorage.t)
  (blobPrefix : string) (w : World) :
  truthySetting (settingsProvider "blobStorageConnectionString") = None ->
  AzureBlobStorage.initContainer sdk settingsProvider = Fulfilled self ->
  AzureBlobStorage.deleteBlobFolder self blobPrefix w
  = (w, Rejected (newError "deleteBlobFolder works only with client created from the blob storage connection string")).
Proof.
  intros Hsetting Hinit.
  unfold AzureBlobStorage.deleteBlobFolder.
  now rewrite (initContainer_without_connection_string _ _ _ Hsetting Hinit).
Qed.

Lemma deleteBlobFolder_needs_connection_string_witness :
  exists self,
    AzureBlobStorage.initContainer
      (exampleSdk (exampleItems 3) exampleClient reliableBatchClient)
      exampleUrlSettings = Fulfilled self
    /\ AzureBlobStorage.deleteBlobFolder self "folder" emptyWorld
       = (emptyWorld,
          Rejected (newError "deleteBlobFolder works only with client created from the blob storage connection string")).
Proof.
  eexists. split; [reflexivity |].
  apply (deleteBlobFolder_needs_connection_string
           (exampleSdk (exampleItems 3) exampleClient reliableBatchClient)
           exampleUrlSettings); reflexivity.
Defined.

(** X17.  When listing the blobs fails, [deleteBlobFolder] rejects with the
    error of the listing itself, not wrapped, and submits, logs and starts
    nothing. *)
Theorem deleteBlobFolder_listing_fails (self : AzureBlobStorage.t)
  (batchClient : BlobBatchClient) (blobPrefix : string) (error : JsError)
  (w : World) :
  AzureBlobStorage.blobBatchClient self = Some batchClient ->
  listBlobsFlat (AzureBlobStorage.containerClient self)
    (AzureBlobStorage.getFullKey (AzureBlobStorage.basePath self) blobPrefix)
  = Rejected error ->
  AzureBlobStorage.deleteBlobFolder self blobPrefix w = (w, Rejected error).
Proof.
  intros Hclient Hlist.
  unfold AzureBlobStorage.deleteBlobFolder, AzureBlobStorage.listAllBlobItems.
  rewrite Hclient. unfold bind at 1. unfold await. now rewrite Hlist.
Qed.

Lemma deleteBlobFolder_listing_fails_witness :
  let self :=
    {| AzureBlobStorage.basePath := EmptyString;
       AzureBlobStorage.containerClient :=
         {| containerName := "content";
            credentialIsAnonymous := false;
            getBlockBlobClient := exampleClient;
            listBlobsFlat := fun _ => Rejected transportError |};
       AzureBlobStorage.blobBatchClient := Some reliableBatchClient |} in
  AzureBlobStorage.deleteBlobFolder self "folder" emptyWorld
  = (emptyWorld, Rejected transportError).
Proof.
  apply (deleteBlobFolder_listing_fails _ reliableBatchClient "folder" transportError);
    reflexivity.
Defined.

Lemma deleteBlobFolder_large_chunks (self : AzureBlobStorage.t)
  (batchClient : BlobBatchClient) (blobPrefix : string) (items : list BlobItem)
  (w : World) (chunks : list (list BlockBlobClient)) (rest : list BlockBlobClient) :
  AzureBlobStorage.blobBatchClient self = Some batchClient ->
  listBlobsFlat (AzureBlobStorage.containerClient self)
    (AzureBlobStorage.getFullKey (AzureBlobStorage.basePath self) blobPrefix)
  = Fulfilled items ->
  (256 <= List.length items)%nat ->
  AzureBlobStorage.chunkArray (List.length (clientsOf self items))
    (clientsOf self items) 250 = Some (chunks, rest) ->
  AzureBlobStorage.deleteBlobFolder self blobPrefix w
  = ({| submitted := submitted w;
        tracked := tracked w;
        floating :=
          floating w
          ++ map (fun chunk =>
                    {| floatingClients := chunk; floatingPrefix := blobPrefix |})
                 chunks;
        unhandledRejections := unhandledRejections w |},
     Fulfilled JsUndefined).
Proof.
  intros Hclient Hlist Hlarge Hchunks.
  unfold AzureBlobStorage.deleteBlobFolder, AzureBlobStorage.listAllBlobItems.
  rewrite Hclient. unfold bind at 1. unfold await. rewrite Hlist.
  fold (clientsOf self items). rewrite Hchunks.
  rewrite (clientsOf_length self items).
  assert (Hpos : (0 <? List.length items)%nat = true) by (apply Nat.ltb_lt; lia).
  assert (Hbig : (List.length items <? 256)%nat = false) by (apply Nat.ltb_ge; lia).
  rewrite Hpos, Hbig.
  unfold bind, tryCatch. rewrite forEach_startFloating. reflexivity.
Qed.

(** X18.  From 256 blobs on, what [deleteBlobFolder] returns and what it
    has done when it returns do not depend on the backend's answers to the
    batches: with any two batch clients the run is the same, nothing has
    been submitted yet, and the promise is fulfilled. *)
Theorem deleteBlobFolder_large_ignores_answers (basePath : string)
  (containerClient : ContainerClient) (first second : BlobBatchClient)
  (blobPrefix : string) (items : list BlobItem) (w : World) :
  listBlobsFlat containerClient (AzureBlobStorage.getFullKey basePath blobPrefix)
  = Fulfilled items ->
  (256 <= List.length items)%nat ->
  let storage batchClient :=
    {| AzureBlobStorage.basePath := basePath;
       AzureBlobStorage.containerClient := containerClient;
       AzureBlobStorage.blobBatchClient := Some batchClient |} in
  AzureBlobStorage.deleteBlobFolder (storage first) blobPrefix w
  = AzureBlobStorage.deleteBlobFolder (storage second) blobPrefix w
  /\ submitted (fst (AzureBlobStorage.deleteBlobFolder (storage first) blobPrefix w))
     = submitted w
  /\ snd (AzureBlobStorage.deleteBlobFolder (storage first) blobPrefix w)
     = Fulfilled JsUndefined.
Proof.
  intros Hlist Hlarge storage.
  destruct (chunkArrayLoop_positive 250 ltac:(lia)
              (List.length (clientsOf (storage first) items))
              (clientsOf (storage first) items) [] (le_n _))
    as (chunks & Hloop & _).
  rewrite (deleteBlobFolder_large_chunks (storage first) first blobPrefix items w
             chunks [] eq_refl Hlist Hlarge Hloop).
  rewrite (deleteBlobFolder_large_chunks (storage second) second blobPrefix items w
             chunks [] eq_refl Hlist Hlarge Hloop).
  repeat split; reflexivity.
Qed.

Lemma deleteBlobFolder_large_ignores_answers_witness :
  let storage batchClient :=
    {| AzureBlobStorage.basePath := EmptyString;
       AzureBlobStorage.containerClient :=
         AzureBlobStorage.containerClient
           (exampleStorage (exampleItems 256) exampleClient reliableBatchClient);
       AzureBlobStorage.blobBatchClient := Some batchClient |} in
  AzureBlobStorage.deleteBlobFolder (storage reliableBatchClient) "folder" emptyWorld
  = AzureBlobStorage.deleteBlobFolder (storage brokenBatchClient) "folder" emptyWorld
  /\ submitted (fst (AzureBlobStorage.deleteBlobFolder (storage reliableBatchClient)
                       "folder" emptyWorld))
     = submitted emptyWorld
  /\ snd (AzureBlobStorage.deleteBlobFolder (storage reliableBatchClient)
            "folder" emptyWorld)
     = Fulfilled JsUndefined.
Proof.
  apply (deleteBlobFolder_large_ignores_answers EmptyString
           (AzureBlobStorage.containerClient
              (exampleStorage (exampleItems 256) exampleClient reliableBatchClient))
           reliableBatchClient brokenBatchClient "folder" (exampleItems 256) emptyWorld);
    [reflexivity | vm_compute; lia].
Defined.

Lemma floating_rejections (batchClient : BlobBatchClient) (blobPrefix : string)
  (chunks : list (list BlockBlobClient)) :
  flat_map (fun task => batchRejections batchClient (map url (floatingClients task)))
    (map (fun chunk => {| floatingClients := chunk; floatingPrefix := blobPrefix |})
         chunks)
  = flat_map (batchRejections batchClient) (map (map url) chunks).
Proof.
  induction chunks as [| chunk rest IH]; [reflexivity |].
  cbn [map flat_map floatingClients]. now rewrite IH.
Qed.

(** X19.  Where a failed submission ends up: below 256 blobs no rejection
    is left unhandled (the caller receives it); from 256 blobs on every
    rejected submission, and nothing else, is left as an unhandled
    rejection. *)
Theorem deleteBlobFolder_unhandled_rejections (self : AzureBlobStorage.t)
  (batchClient : BlobBatchClient) (blobPrefix : string) (items : list BlobItem) :
  AzureBlobStorage.blobBatchClient self = Some batchClient ->
  listBlobsFlat (AzureBlobStorage.containerClient self)
    (AzureBlobStorage.getFullKey (AzureBlobStorage.basePath self) blobPrefix)
  = Fulfilled items ->
  let run := AzureBlobStorage.deleteBlobFolder self blobPrefix emptyWorld in
  let final := AzureBlobStorage.drainJobs self (fst run) in
  unhandledRejections final
  = if (List.length items <? 256)%nat then []
    else flat_map (batchRejections batchClient) (submitted final).
Proof.
  intros Hclient Hlist run final. subst final run.
  destruct (Nat.ltb_spec (List.length items) 256) as [Hsmall | Hlarge].
  - destruct items as [| item rest] eqn:Hitems.
    + now rewrite (deleteBlobFolder_empty self batchClient blobPrefix [] Hclient Hlist
                     _ eq_refl).
    + rewrite <- Hitems in *.
      assert (Hne : items <> []) by (rewrite Hitems; discriminate).
      now rewrite (deleteBlobFolder_small self batchClient blobPrefix items Hclient Hlist
                     _ Hne Hsmall).
  - destruct (deleteBlobFolder_large self batchClient blobPrefix items Hclient Hlist
                emptyWorld Hlarge) as (chunks & _ & _ & Hrun).
    rewrite Hrun. cbn [fst]. unfold AzureBlobStorage.drainJobs.
    rewrite (runFloating_run self batchClient Hclient).
    cbn [submitted tracked floating unhandledRejections emptyWorld app].
    now rewrite floating_batches, floating_rejections.
Qed.

Lemma deleteBlobFolder_unhandled_rejections_witness :
  let self := exampleStorage (exampleItems 256) exampleClient brokenBatchClient in
  let run := AzureBlobStorage.deleteBlobFolder self "folder" emptyWorld in
  let final := AzureBlobStorage.drainJobs self (fst run) in
  unhandledRejections final
  = if (List.length (exampleItems 256) <? 256)%nat then []
    else flat_map (batchRejections brokenBatchClient) (submitted final).
Proof.
  apply (deleteBlobFolder_unhandled_rejections
           (exampleStorage (exampleItems 256) exampleClient brokenBatchClient)
           brokenBatchClient "folder" (exampleItems 256));
    reflexivity.
Defined.

(** X20.  [deleteBlobFolder] deletes what [listBlobs] shows: for one
    prefix and one listing, the sub-requests of all the batches submitted,
    in order, are the URLs of the clients of the names [listBlobs] returns,
    each once. *)
Theorem deleteBlobFolder_submits_listed_blobs (self : AzureBlobStorage.t)
  (batchClient : BlobBatchClient) (blobPrefix : string) (items : list BlobItem) :
  AzureBlobStorage.blobBatchClient self = Some batchClient ->
  listBlobsFlat (AzureBlobStorage.containerClient self)
    (AzureBlobStorage.getFullKey (AzureBlobStorage.basePath self) blobPrefix)
  = Fulfilled items ->
  let run := AzureBlobStorage.deleteBlobFolder self blobPrefix emptyWorld in
  let final := AzureBlobStorage.drainJobs self (fst run) in
  exists names,
    AzureBlobStorage.listBlobs self blobPrefix emptyWorld = (emptyWorld, Fulfilled names)
    /\ List.concat (submitted final)
       = map (fun blobName =>
                url (getBlockBlobClient (AzureBlobStorage.containerClient self) blobName))
             names.
Proof.
  intros Hclient Hlist run final.
  exists (map name items). split.
  - unfold AzureBlobStorage.listBlobs, AzureBlobStorage.listAllBlobItems.
    unfold bind, await. rewrite Hlist.
    destruct items; reflexivity.
  - destruct (deleteBlobFolder_drained self batchClient blobPrefix items Hclient Hlist)
      as (groups & Hconcat & Hsubmitted & _).
    fold run in Hsubmitted. fold final in Hsubmitted.
    rewrite Hsubmitted, <- concat_map, Hconcat.
    unfold clientsOf. now rewrite !map_map.
Qed.

Lemma deleteBlobFolder_submits_listed_blobs_witness :
  let self := exampleStorage (exampleItems 300) exampleClient reliableBatchClient in
  let run := AzureBlobStorage.deleteBlobFolder self "folder" emptyWorld in
  let final := AzureBlobStorage.drainJobs self (fst run) in
  exists names,
    AzureBlobStorage.listBlobs self "folder" emptyWorld = (emptyWorld, Fulfilled names)
    /\ List.concat (submitted final)
       = map (fun blobName =>
                url (getBlockBlobClient (AzureBlobStorage.containerClient self) blobName))
             names.
Proof.
  apply (deleteBlobFolder_submits_listed_blobs
           (exampleStorage (exampleItems 300) exampleClient reliableBatchClient)
           reliableBatchClient "folder" (exampleItems 300));
    reflexivity.
Defined.

(** ** Single blobs *)


(** X22.  [getDownloadUrl] resolves with [null] in one case only: the
    credential is not anonymous and [generateSasUrl] rejects with status
    404.  In particular it never does so for an anonymous credential. *)
Theorem getDownloadUrl_null_iff (self : AzureBlobStorage.t) (blobKey : string)
  (w : World) :
  let blockBlobClient :=
    getBlockBlobClient (AzureBlobStorage.containerClient self)
      (AzureBlobStorage.getFullKey (AzureBlobStorage.basePath self) blobKey) in
  snd (AzureBlobStorage.getDownloadUrl self blobKey w) = Fulfilled JsNull
  <-> credentialIsAnonymous (AzureBlobStorage.containerClient self) = false
      /\ exists error,
           generateSasUrl blockBlobClient = Rejected error
           /\ statusCode error = Some 404.
Proof.
  intros blockBlobClient.
  unfold AzureBlobStorage.getDownloadUrl, tryCatch, bind, await, ret, throw.
  fold blockBlobClient.
  destruct (credentialIsAnonymous (AzureBlobStorage.containerClient self));
    cbn [negb snd].
  - split; [discriminate | intros [H _]; discriminate].
  - destruct (generateSasUrl blockBlobClient) as [| sas | reason]; cbn [snd].
    + split; [discriminate | intros [_ (e & H & _)]; discriminate].
    + split; [discriminate | intros [_ (e & H & _)]; discriminate].
    + destruct (statusCode reason) as [code |] eqn:Hcode.
      * destruct (code =? 404) eqn:H404.
        -- apply Z.eqb_eq in H404. subst code. cbn [negb andb Z.eqb snd].
           split; [| reflexivity].
           intros _. split; [reflexivity |]. now exists reason.
        -- rewrite andb_false_r. cbn [snd].
           split; [discriminate |].
           intros [_ (e & H & Hstatus)]. injection H as <-.
           apply Z.eqb_neq in H404. congruence.
      * cbn [snd]. split; [discriminate |].
        intros [_ (e & H & Hstatus)]. injection H as <-. congruence.
Qed.

(** ** Initialisation *)

(** X23.  For settings that can be read, [initContainer] rejects in these
    cases and no other: a connection string without a container name (its
    own error, raised before any SDK call; a storage URL does not help);
    neither a connection string nor a storage URL (its own error); or an SDK
    constructor throws, and then with what was thrown.  When it succeeds,
    the storage has a batch client exactly if a connection string was set,
    and its base path is the normalised setting. *)
Theorem initContainer_outcome (sdk : StorageSdk) (settingsProvider : SettingsProvider) :
  let connectionString :=
    truthySetting (settingsProvider "blobStorageConnectionString") in
  let containerName := truthySetting (settingsProvider "blobStorageContainer") in
  let storageUrl := truthySetting (settingsProvider "blobStorageUrl") in
  (forall error,
     AzureBlobStorage.initContainer sdk settingsProvider = Rejected error
     <-> (connectionString <> None /\ containerName = None
          /\ error = containerSettingMissing)
         \/ (connectionString = None /\ storageUrl = None
             /\ error = storageSettingMissing)
         \/ (exists blobStorageConnectionString name,
               connectionString = Some blobStorageConnectionString
               /\ containerName = Some name
               /\ (fromConnectionString sdk blobStorageConnectionString = Thrown error
                   \/ exists serviceClient,
                        fromConnectionString sdk blobStorageConnectionString
                        = Returned serviceClient
                        /\ (getContainerClient serviceClient name = Thrown error
                            \/ (exists client,
                                  getContainerClient serviceClient name = Returned client)
                               /\ getBlobBatchClient serviceClient = Thrown error)))
         \/ (exists blobStorageUrl,
               connectionString = None
               /\ storageUrl = Some blobStorageUrl
               /\ newContainerClient sdk blobStorageUrl = Thrown error))
  /\ (forall self,
        AzureBlobStorage.initContainer sdk settingsProvider = Fulfilled self ->
        (AzureBlobStorage.blobBatchClient self <> None <-> connectionString <> None)
        /\ AzureBlobStorage.basePath self
           = AzureBlobStorage.normalizePath
               (match truthySetting (settingsProvider "blobStorageBasePath") with
                | Some value => value
                | None => EmptyString
                end)).
Proof.
  intros connectionString containerName storageUrl.
  unfold AzureBlobStorage.initContainer.
  fold connectionString containerName storageUrl.
  fold containerSettingMissing storageSettingMissing.
  split.
  - intros error.
    destruct connectionString as [cs |]; [destruct containerName as [cn |]
                                        | destruct storageUrl as [su |]].
    + destruct (fromConnectionString sdk cs) as [serviceClient | thrown] eqn:Hservice.
      * destruct (getContainerClient serviceClient cn) as [client | thrown]
          eqn:Hcontainer.
        -- destruct (getBlobBatchClient serviceClient) as [batch | thrown] eqn:Hbatch.
           ++ split; [discriminate |].
              intros [(_ & H & _) | [(H & _) | [(cs' & cn' & Hcs & Hcn & Hsdk)
                                               | (su & H & _)]]];
                try discriminate.
              injection Hcs as <-. injection Hcn as <-.
              destruct Hsdk as [H | (svc & Hsvc & Hrest)]; [congruence |].
              rewrite Hservice in Hsvc. injection Hsvc as <-.
              destruct Hrest as [H | [_ H]]; congruence.
           ++ split.
              ** intros H. injection H as ->. right. right. left.
                 exists cs, cn. split; [reflexivity |]. split; [reflexivity |].
                 right. exists serviceClient. split; [exact Hservice |].
                 right. split; [now exists client | exact Hbatch].
              ** intros [(_ & H & _) | [(H & _) | [(cs' & cn' & Hcs & Hcn & Hsdk)
                                                  | (su & H & _)]]];
                   try discriminate.
                 injection Hcs as <-. injection Hcn as <-.
                 destruct Hsdk as [H | (svc & Hsvc & Hrest)]; [congruence |].
                 rewrite Hservice in Hsvc. injection Hsvc as <-.
                 destruct Hrest as [H | [_ H]]; congruence.
        -- split.
           ++ intros H. injection H as ->. right. right. left.
              exists cs, cn. split; [reflexivity |]. split; [reflexivity |].
              right. exists serviceClient. split; [exact Hservice |]. now left.
           ++ intros [(_ & H & _) | [(H & _) | [(cs' & cn' & Hcs & Hcn & Hsdk)
                                               | (su & H & _)]]];
                try discriminate.
              injection Hcs as <-. injection Hcn as <-.
              destruct Hsdk as [H | (svc & Hsvc & Hrest)]; [congruence |].
              rewrite Hservice in Hsvc. injection Hsvc as <-.
              destruct Hrest as [H | [(client & H) _]]; congruence.
      * split.
        -- intros H. injection H as ->. right. right. left.
           exists cs, cn. split; [reflexivity |]. split; [reflexivity |]. now left.
        -- intros [(_ & H & _) | [(H & _) | [(cs' & cn' & Hcs & Hcn & Hsdk)
                                            | (su & H & _)]]];
             try discriminate.
           injection Hcs as <-. injection Hcn as <-.
           destruct Hsdk as [H | (svc & Hsvc & _)]; congruence.
    + split.
      * intros H. injection H as <-. left.
        split; [discriminate |]. split; reflexivity.
      * intros [(_ & _ & ->) | [(H & _) | [(cs' & cn' & _ & H & _)
                                           | (su & H & _)]]];
          try discriminate. reflexivity.
    + destruct (newContainerClient sdk su) as [client | thrown] eqn:Hclient.
      * split; [discriminate |].
        intros [(H & _) | [(_ & H & _) | [(cs' & cn' & H & _)
                                          | (su' & _ & Hsu & Hthrown)]]];
          try discriminate; try congruence; injection Hsu as <-; congruence.
      * split.
        -- intros H. injection H as ->. right. right. right.
           exists su. repeat split; assumption.
        -- intros [(H & _) | [(_ & H & _) | [(cs' & cn' & H & _)
                                             | (su' & _ & Hsu & Hthrown)]]];
             try discriminate; try congruence; injection Hsu as <-; congruence.
    + split.
      * intros H. injection H as <-. right. left. repeat split.
      * intros [(H & _) | [(_ & _ & ->) | [(cs' & cn' & H & _)
                                           | (su' & _ & H & _)]]];
          try discriminate; try congruence; reflexivity.
  - intros self Hinit.
    destruct connectionString as [cs |].
    + destruct_matches Hinit; injection Hinit as <-; cbn;
        (split; [split; intros _; discriminate | reflexivity]).
    + destruct_matches Hinit; injection Hinit as <-; cbn;
        (split; [split; intros H; congruence | reflexivity]).
Qed.

Lemma initializeEach_memo (calls : list (StorageSdk * SettingsProvider))
  (existing : Promise AzureBlobStorage.t) :
  Forall (fun returned => returned = existing)
         (AzureBlobStorage.initializeEach calls (Some existing)).
Proof.
  induction calls as [| [sdk settingsProvider] rest IH]; [constructor |].
  cbn [AzureBlobStorage.initializeEach AzureBlobStorage.initialize].
  constructor; [reflexivity | exact IH].
Qed.

(** X24.  [initialize()] runs [initContainer] once: on a fresh instance
    every call, however often it is made and whatever the settings have
    become since, returns the promise of the first call.  A failed
    initialisation is therefore never tried again. *)
Theorem initialize_once (sdk : StorageSdk) (settingsProvider : SettingsProvider)
  (later : list (StorageSdk * SettingsProvider)) :
  Forall (fun returned =>
            returned = AzureBlobStorage.initContainer sdk settingsProvider)
         (AzureBlobStorage.initializeEach ((sdk, settingsProvider) :: later) None).
Proof.
  cbn [AzureBlobStorage.initializeEach AzureBlobStorage.initialize].
  constructor; [reflexivity | apply initializeEach_memo].
Qed.

(** X25.  In the browser adapter folders cannot be deleted: whatever the
    settings, a storage that [initContainer] of the browser has built makes
    [deleteBlobFolder] reject with its own error before anything is listed
    or submitted. *)
Theorem browser_cannot_delete_folders (sdk : StorageSdk)
  (settingsProvider : SettingsProvider) (self : AzureBlobStorage.t)
  (blobPrefix : string) (w : World) :
  BrowserAzureBlobStorage.initContainer sdk settingsProvider = Fulfilled self ->
  AzureBlobStorageBase.deleteBlobFolder self blobPrefix w
  = (w, Rejected (newError "deleteBlobFolder works only with client created from the blob storage connection string")).
Proof.
  unfold BrowserAzureBlobStorage.initContainer. intros Hinit.
  destruct_matches Hinit; injection Hinit as <-; reflexivity.
Qed.

Lemma browser_cannot_delete_folders_witness :
  exists self,
    BrowserAzureBlobStorage.initContainer
      (exampleSdk (exampleItems 3) exampleClient reliableBatchClient)
      exampleUrlSettings = Fulfilled self
    /\ AzureBlobStorageBase.deleteBlobFolder self "folder" emptyWorld
       = (emptyWorld,
          Rejected (newError "deleteBlobFolder works only with client created from the blob storage connection string")).
Proof.
  eexists. split; [reflexivity |].
  apply (browser_cannot_delete_folders
           (exampleSdk (exampleItems 3) exampleClient reliableBatchClient)
           exampleUrlSettings).
  reflexivity.
Defined.

(** ** Contents *)

Lemma streamToBufferFrom_data (chunks : list bytes) (rest : list StreamEvent)
  (collected : list bytes) :
  streamToBufferFrom (map StreamData chunks ++ rest) collected
  = streamToBufferFrom rest (collected ++ chunks).
Proof.
  revert collected. induction chunks as [| chunk chunks IH]; intros collected.
  - now rewrite app_nil_r.
  - cbn [map app streamToBufferFrom]. rewrite IH. now rewrite <- app_assoc.
Qed.

(** X26.  [streamToBuffer] resolves with the chunks received before the
    first ["end"], concatenated in order; it rejects with the first error
    if that comes before any ["end"]; what the stream emits afterwards
    changes nothing; and while the stream only delivers data the promise
    stays pending. *)
Theorem streamToBuffer_collects (chunks : list bytes) (rest : list StreamEvent)
  (error : JsError) :
  streamToBuffer (Some (map StreamData chunks ++ StreamEnd :: rest)%list)
  = Fulfilled (List.concat chunks)
  /\ streamToBuffer (Some (map StreamData chunks ++ StreamError error :: rest)%list)
     = Rejected error
  /\ streamToBuffer (Some (map StreamData chunks)) = Pending.
Proof.
  unfold streamToBuffer. repeat split.
  - now rewrite streamToBufferFrom_data.
  - now rewrite streamToBufferFrom_data.
  - rewrite <- (app_nil_r (map StreamData chunks)).
    now rewrite streamToBufferFrom_data.
Qed.

(** X27.  [getBlobAsUint8Array] never rejects.  When it resolves with
    [null] it has logged exactly one event; when it resolves with bytes it
    has logged nothing. *)
Theorem getBlobAsUint8Array_never_rejects (self : AzureBlobStorage.t)
  (transfer : BlobTransfer) (blobKey : string) (w : World) :
  let run := AzureBlobStorage.getBlobAsUint8Array self transfer blobKey w in
  (forall error, snd run <> Rejected error)
  /\ (snd run = Fulfilled None ->
      exists event,
        eventName event = "AzureBlobStorage"
        /\ fst run
           = {| submitted := submitted w;
                tracked := tracked w ++ [event];
                floating := floating w;
                unhandledRejections := unhandledRejections w |})
  /\ (forall content, snd run = Fulfilled (Some content) -> fst run = w).
Proof.
  intros run. subst run.
  unfold AzureBlobStorage.getBlobAsUint8Array, AzureBlobStorage.getBlobAsStream,
    tryCatch, bind, await, ret, trackEvent.
  destruct (download transfer _) as [| response | reason]; cbn [fst snd].
  - repeat split; intros; discriminate.
  - destruct (streamToBuffer (readableStreamBody response)) as [| buffer | reason];
      cbn [fst snd].
    + repeat split; intros; discriminate.
    + repeat split; intros; (discriminate || reflexivity).
    + split; [intros; discriminate |]. split; [| intros; discriminate].
      intros _. eexists. split; [| reflexivity]. reflexivity.
  - split; [intros; discriminate |]. split; [| intros; discriminate].
    intros _. eexists. split; [| reflexivity]. reflexivity.
Qed.

(** X28.  [downloadBlob] of the server adapter.  A failed initialisation
    is rejected as it is and nothing is logged.  After a successful one:
    an error of [download()] or of the stream is logged in one event that
    names the blob's URL without its query string, and is thrown again
    unchanged; a response without a stream is logged in one event with its
    status code and the method resolves without a value; a stream that ends
    gives the bytes and nothing is logged. *)
Theorem server_downloadBlob_logs_failures
  (initialized : Promise AzureBlobStorage.t) (transfer : BlobTransfer)
  (blobKey : string) (w : World) :
  let run := ServerAzureBlobStorage.downloadBlob initialized transfer blobKey w in
  (forall error, initialized = Rejected error -> run = (w, Rejected error))
  /\ (forall self,
        initialized = Fulfilled self ->
        let fullBlobKey :=
          AzureBlobStorageBase.getFullKey (AzureBlobStorage.basePath self) blobKey in
        let blobUrl :=
          ServerAzureBlobStorage.removeQueryParameters
            (blobClientUrl transfer fullBlobKey) in
        (forall error,
           download transfer fullBlobKey = Rejected error ->
           run = (logged w (downloadErrorEvent transfer blobUrl error), Rejected error))
        /\ (forall response,
              download transfer fullBlobKey = Fulfilled response ->
              readableStreamBody response = None ->
              run = (logged w (downloadStatusEvent blobUrl (status response)),
                     Fulfilled None))
        /\ (forall response events error,
              download transfer fullBlobKey = Fulfilled response ->
              readableStreamBody response = Some events ->
              streamToBuffer (Some events) = Rejected error ->
              run = (logged w (downloadErrorEvent transfer blobUrl error),
                     Rejected error))
        /\ (forall response events buffer,
              download transfer fullBlobKey = Fulfilled response ->
              readableStreamBody response = Some events ->
              streamToBuffer (Some events) = Fulfilled buffer ->
              run = (w, Fulfilled (Some (arrayBufferOf transfer buffer))))).
Proof.
  intros run. subst run.
  unfold ServerAzureBlobStorage.downloadBlob.
  split.
  - intros error ->. reflexivity.
  - intros self Hinit. rewrite Hinit. cbv zeta.
    unfold tryCatch, bind, await, ret, throw, trackEvent, logged,
      downloadErrorEvent, downloadStatusEvent.
    split; [| split; [| split]].
    + intros error Hdownload. now rewrite Hdownload.
    + intros response Hdownload Hstream. now rewrite Hdownload, Hstream.
    + intros response events error Hdownload Hstream Hbuffer.
      now rewrite Hdownload, Hstream, Hbuffer.
    + intros response events buffer Hdownload Hstream Hbuffer.
      now rewrite Hdownload, Hstream, Hbuffer.
Qed.

Lemma truthySetting_nonEmpty (setting : option string) (value : string) :
  truthySetting setting = Some value -> value <> EmptyString.
Proof.
  destruct setting as [candidate |]; [| discriminate]. cbn [truthySetting].
  destruct candidate; cbn; [discriminate |].
  intros H. injection H as <-. discriminate.
Qed.

(** X29.  [uploadBlob].  A failed initialisation is rejected as it is.
    After a successful one the content type sent with the blob is never
    empty, and a non-empty content type given by the caller is sent as it
    is; when the upload succeeds the method resolves; when the upload fails
    the method rejects with a plain [Error] that names the full key and
    carries no status code, so the status of the backend's error is lost.
    Nothing is logged. *)
Theorem uploadBlob_outcome (initialized : Promise AzureBlobStorage.t)
  (transfer : BlobTransfer) (blobKey : string) (content : bytes)
  (contentType : option string) (w : World) :
  let run :=
    AzureBlobStorage.uploadBlob initialized transfer blobKey content contentType w in
  (forall error, initialized = Rejected error -> run = (w, Rejected error))
  /\ (forall self,
        initialized = Fulfilled self ->
        let fullKey :=
          AzureBlobStorage.getFullKey (AzureBlobStorage.basePath self) blobKey in
        let sent := AzureBlobStorage.contentTypeFor transfer fullKey contentType in
        sent <> EmptyString
        /\ (forall given,
              contentType = Some given -> given <> EmptyString -> sent = given)
        /\ (upload transfer fullKey content sent = Fulfilled tt ->
            run = (w, Fulfilled JsUndefined))
        /\ (forall original,
              upload transfer fullKey content sent = Rejected original ->
              run
              = (w, Rejected
                      {| errorName := "Error";
                         message :=
                           "Unable to upload blob " ++ fullKey ++ ". "
                           ++ stackOrMessage transfer original;
                         statusCode := None |}))).
Proof.
  intros run. subst run. unfold AzureBlobStorage.uploadBlob. split.
  - intros error ->. reflexivity.
  - intros self Hinit. rewrite Hinit. cbv zeta.
    unfold tryCatch, bind, await, ret, throw, newError. cbv beta zeta.
    set (fullKey :=
           AzureBlobStorage.getFullKey (AzureBlobStorage.basePath self) blobKey).
    set (sent := AzureBlobStorage.contentTypeFor transfer fullKey contentType).
    split; [| split; [| split]].
    + subst sent. unfold AzureBlobStorage.contentTypeFor.
      destruct (truthySetting contentType) as [given |] eqn:Hgiven;
        [exact (truthySetting_nonEmpty _ _ Hgiven) |].
      destruct (truthySetting (mimeLookup transfer (fileNameOf fullKey)))
        as [found |] eqn:Hfound;
        [exact (truthySetting_nonEmpty _ _ Hfound) | discriminate].
    + intros given -> Hgiven. subst sent. unfold AzureBlobStorage.contentTypeFor.
      destruct given; [congruence | reflexivity].
    + intros Hupload. now rewrite Hupload.
    + intros original Hupload. now rewrite Hupload.
Qed.

(** X30.  [downloadBlob] of [azureBlobStorage.ts] catches nothing and logs
    nothing: an error of [download()], a 404 included, reaches the caller
    unchanged; a body of the browser is returned even when a stream is
    there too; and a response with neither is an [Error] that names the key
    as the caller gave it. *)
Theorem downloadBlob_outcome (self : AzureBlobStorage.t) (transfer : BlobTransfer)
  (blobKey : string) (w : World) :
  let fullBlobKey :=
    AzureBlobStorage.getFullKey (AzureBlobStorage.basePath self) blobKey in
  let run := AzureBlobStorage.downloadBlob self transfer blobKey w in
  fst run = w
  /\ (forall error,
        download transfer fullBlobKey = Rejected error -> snd run = Rejected error)
  /\ (forall response body,
        download transfer fullBlobKey = Fulfilled response ->
        blobBody response = Some body ->
        snd run = body)
  /\ (forall response,
        download transfer fullBlobKey = Fulfilled response ->
        blobBody response = None ->
        readableStreamBody response = None ->
        snd run = Rejected (newError ("Unable to download blob " ++ blobKey ++ "."))).
Proof.
  intros fullBlobKey run. subst run.
  unfold AzureBlobStorage.downloadBlob, bind, await, ret, throw.
  fold fullBlobKey.
  destruct (download transfer fullBlobKey) as [| response | reason].
  - split; [reflexivity |]. repeat split; intros; discriminate.
  - destruct (blobBody response) as [body |] eqn:Hbody.
    + split; [now destruct body |]. split; [intros; discriminate |].
      split.
      * intros ? ? H Hsome. injection H as <-. rewrite Hbody in Hsome.
        injection Hsome as <-. now destruct body.
      * intros ? H Hnone. injection H as <-. congruence.
    + destruct (readableStreamBody response) as [events |] eqn:Hstream.
      * split; [now destruct (streamToBuffer (Some events)) |].
        split; [intros; discriminate |].
        split.
        -- intros ? ? H Hsome. injection H as <-. congruence.
        -- intros ? H _ Hnone. injection H as <-. congruence.
      * split; [reflexivity |]. split; [intros; discriminate |].
        split.
        -- intros ? ? H Hsome. injection H as <-. congruence.
        -- reflexivity.
  - split; [reflexivity |]. split; [intros ? H; now injection H as <- |].
    split; intros; discriminate.
Qed.
